(** * taiko-client: blob transaction-list fetcher and proof contester

    A shallow embedding of

    - [driver/txlist_fetcher/blob.go]   ([BlobFetcher.Fetch]),
    - the proof contester of package [submitter] ([ProofContester.SubmitContest]),
    - the proof submitter exercised by [proof_submitter_test.go]
      ([SubmitProof], [RequestProof]; their bodies are not part of the
      available sources and are modelled from the specification),

    together with the library functions the sources call
    ([common.FromHex], [common.BytesToHash], [kzg4844.CalcBlobHashV1] over
    [crypto/sha256], [strings.Contains], [big.Int.Uint64]). *)

From Stdlib Require Import ZArith List String Ascii Bool Lia Arith.
From Stdlib.Strings Require Import Byte.
Import ListNotations.

Local Open Scope Z_scope.

(* ===================================================================== *)
(** * Go runtime and library functions *)
(* ===================================================================== *)

Module Go.

(** ** Bytes *)

Definition bytes := list byte.

Definition Z_of_byte (b : byte) : Z := Z.of_N (Byte.to_N b).

Definition byte_of_Z (z : Z) : byte :=
  match Byte.of_N (Z.to_N (z mod 256)) with
  | Some b => b
  | None => x00
  end.

Fixpoint bytes_eqb (a b : bytes) : bool :=
  match a, b with
  | [], [] => true
  | x :: a', y :: b' => Byte.eqb x y && bytes_eqb a' b'
  | _, _ => false
  end.

(** ** Unsigned machine integers *)

(** [x + y] on [uint64]. *)
Definition uint64_add (x y : Z) : Z := (x + y) mod 2 ^ 64.

(** [Uint64] of a [big.Int]: the low 64 bits of the magnitude. *)
Definition big_Uint64 (x : Z) : Z := Z.abs x mod 2 ^ 64.

(** ** [strings.Contains] *)

Fixpoint HasPrefix (s prefix : string) : bool :=
  match prefix, s with
  | EmptyString, _ => true
  | String c p', String d s' => Ascii.eqb c d && HasPrefix s' p'
  | String _ _, EmptyString => false
  end.

Fixpoint Contains (s substr : string) : bool :=
  HasPrefix s substr ||
  match s with
  | EmptyString => false
  | String _ s' => Contains s' substr
  end.

(** ** [encoding/hex] and [common.FromHex] *)

(** [fromHexChar]: the value of a hexadecimal digit. *)
Definition fromHexChar (c : ascii) : option Z :=
  let n := Z.of_nat (nat_of_ascii c) in
  if (48 <=? n) && (n <=? 57) then Some (n - 48)
  else if (97 <=? n) && (n <=? 102) then Some (n - 97 + 10)
  else if (65 <=? n) && (n <=? 70) then Some (n - 65 + 10)
  else None.

(** [hex.Decode] as used by [common.Hex2Bytes]: pairs of digits are decoded
    from the left, and the bytes decoded before the first invalid digit are
    kept (the error is dropped by [Hex2Bytes]). *)
Fixpoint Hex2Bytes (s : string) : bytes :=
  match s with
  | String p (String q s') =>
      match fromHexChar p, fromHexChar q with
      | Some a, Some b => byte_of_Z (Z.lor (Z.shiftl a 4) b) :: Hex2Bytes s'
      | _, _ => []
      end
  | _ => []
  end.

Definition has0xPrefix (s : string) : bool :=
  match s with
  | String c0 (String c1 _) =>
      Ascii.eqb c0 "0" && (Ascii.eqb c1 "x" || Ascii.eqb c1 "X")
  | _ => false
  end.

(** [common.FromHex]: an optional [0x] prefix is dropped and an odd number
    of digits is completed by a leading zero. *)
Definition FromHex (s : string) : bytes :=
  let s := if has0xPrefix s then String.substring 2 (String.length s - 2) s else s in
  let s := if Nat.odd (String.length s) then String "0" s else s in
  Hex2Bytes s.

(** [common.Bytes2Hex]: two lower-case digits per byte. *)
Definition hexDigit (n : Z) : ascii :=
  ascii_of_nat (Z.to_nat (if n <? 10 then 48 + n else 97 + n - 10)).

Fixpoint Bytes2Hex (b : bytes) : string :=
  match b with
  | [] => EmptyString
  | x :: b' =>
      let n := Z_of_byte x in
      String (hexDigit (Z.shiftr n 4)) (String (hexDigit (Z.land n 15)) (Bytes2Hex b'))
  end.

(** ** Errors *)

(** A Go [error] value that is not [nil], known by its message: [Error e]
    is what the method [Error()] returns.  An [error] that may be [nil] is an
    [option error]. *)
Record error : Type := errors_New { Error : string }.

(** ** [crypto/sha256] *)

Module sha256.

Definition mask32 (x : Z) : Z := Z.land x (Z.ones 32).
Definition add32 (x y : Z) : Z := mask32 (x + y).
Definition rotr (n x : Z) : Z :=
  mask32 (Z.lor (Z.shiftr x n) (Z.shiftl x (32 - n))).

Definition Ch (x y z : Z) : Z := Z.lxor (Z.land x y) (Z.land (mask32 (Z.lnot x)) z).
Definition Maj (x y z : Z) : Z :=
  Z.lxor (Z.lxor (Z.land x y) (Z.land x z)) (Z.land y z).
Definition Sigma0 (x : Z) : Z := Z.lxor (Z.lxor (rotr 2 x) (rotr 13 x)) (rotr 22 x).
Definition Sigma1 (x : Z) : Z := Z.lxor (Z.lxor (rotr 6 x) (rotr 11 x)) (rotr 25 x).
Definition sigma0 (x : Z) : Z := Z.lxor (Z.lxor (rotr 7 x) (rotr 18 x)) (Z.shiftr x 3).
Definition sigma1 (x : Z) : Z := Z.lxor (Z.lxor (rotr 17 x) (rotr 19 x)) (Z.shiftr x 10).

(** The constants are taken from their definition: the first 32 bits of
    the fractional parts of the cube roots of the first 64 primes (round
    constants) and of the square roots of the first 8 primes (initial
    state). *)
Definition is_prime (n : Z) : bool :=
  forallb (fun d => negb (n mod Z.of_nat d =? 0)) (seq 2 (Z.to_nat n - 2)).

Definition primes : list Z :=
  Eval vm_compute in filter is_prime (map Z.of_nat (seq 2 310)).

(** The largest [r] below [2 ^ bits] with [r ^ 3 <= n], bit by bit. *)
Fixpoint cube_root (bits : nat) (n r : Z) : Z :=
  match bits with
  | O => r
  | S bits' =>
      let r' := r + 2 ^ Z.of_nat bits' in
      cube_root bits' n (if r' ^ 3 <=? n then r' else r)
  end.

Definition K : list Z :=
  Eval vm_compute in map (fun p => mask32 (cube_root 36 (p * 2 ^ 96) 0)) primes.

Definition init : list Z :=
  Eval vm_compute in map (fun p => mask32 (Z.sqrt (p * 2 ^ 64))) (firstn 8 primes).

(** Big-endian encoding of [x] on [n] bytes. *)
Fixpoint be_bytes (n : nat) (x : Z) : bytes :=
  match n with
  | O => []
  | S n' => byte_of_Z (Z.shiftr x (8 * Z.of_nat n')) :: be_bytes n' x
  end.

(** The message followed by [0x80], zero bytes up to 56 modulo 64, and the
    bit length on 8 bytes. *)
Definition pad (msg : bytes) : bytes :=
  let len := Z.of_nat (List.length msg) in
  let zeros := Z.to_nat ((55 - len) mod 64) in
  msg ++ x80 :: repeat x00 zeros ++ be_bytes 8 (8 * len).

Fixpoint words (n : nat) (b : bytes) : list Z :=
  match n, b with
  | S n', b0 :: b1 :: b2 :: b3 :: rest =>
      (Z.shiftl (Z_of_byte b0) 24 + Z.shiftl (Z_of_byte b1) 16
       + Z.shiftl (Z_of_byte b2) 8 + Z_of_byte b3) :: words n' rest
  | _, _ => []
  end.

(** The message schedule: [rev_w] holds [W_(t-1), W_(t-2), ...]. *)
Fixpoint schedule (n : nat) (rev_w : list Z) : list Z :=
  match n with
  | O => rev rev_w
  | S n' =>
      let w i := nth i rev_w 0 in
      let x := add32 (add32 (sigma1 (w 1%nat)) (w 6%nat))
                     (add32 (sigma0 (w 14%nat)) (w 15%nat)) in
      schedule n' (x :: rev_w)
  end.

Definition state := (Z * Z * Z * Z * Z * Z * Z * Z)%type.

Definition round (s : state) (kw : Z * Z) : state :=
  let '(a, b, c, d, e, f, g, h) := s in
  let '(k, w) := kw in
  let t1 := add32 (add32 (add32 (add32 h (Sigma1 e)) (Ch e f g)) k) w in
  let t2 := add32 (Sigma0 a) (Maj a b c) in
  (add32 t1 t2, a, b, c, add32 d t1, e, f, g).

Definition of_list (l : list Z) : state :=
  let n i := nth i l 0 in
  (n 0%nat, n 1%nat, n 2%nat, n 3%nat, n 4%nat, n 5%nat, n 6%nat, n 7%nat).

Definition to_list (s : state) : list Z :=
  let '(a, b, c, d, e, f, g, h) := s in [a; b; c; d; e; f; g; h].

Definition block (h : list Z) (b : bytes) : list Z :=
  let w := schedule 48 (rev (words 16 b)) in
  let s := fold_left round (combine K w) (of_list h) in
  map (fun p => add32 (fst p) (snd p)) (combine h (to_list s)).

Fixpoint blocks (n : nat) (h : list Z) (b : bytes) : list Z :=
  match n with
  | O => h
  | S n' => blocks n' (block h (firstn 64 b)) (skipn 64 b)
  end.

(** [sha256.Sum256]. *)
Definition Sum256 (msg : bytes) : bytes :=
  let p := pad msg in
  flat_map (be_bytes 4) (blocks (List.length p / 64) init p).

End sha256.

(** [common.BytesToHash]: the last 32 bytes, left-padded with zeros. *)
Definition BytesToHash (b : bytes) : bytes :=
  let b := skipn (List.length b - 32) b in
  repeat x00 (32 - List.length b) ++ b.

(** Conversion of a slice to [kzg4844.Commitment], an array of 48 bytes: the
    first 48 bytes; a shorter slice makes the conversion panic ([None]). *)
Definition kzg4844_Commitment (b : bytes) : option bytes :=
  if (List.length b <? 48)%nat then None else Some (firstn 48 b).

(** [kzg4844.CalcBlobHashV1] with a SHA-256 hasher: the digest of the
    commitment with its first byte replaced by the version [0x01]. *)
Definition CalcBlobHashV1 (commit : bytes) : bytes :=
  match sha256.Sum256 commit with
  | [] => []
  | _ :: t => x01 :: t
  end.

End Go.


(* ===================================================================== *)
(** * Data model *)
(* ===================================================================== *)

Import Go.

Local Open Scope string_scope.
Local Open Scope list_scope.
Local Open Scope Z_scope.

(** [common.Hash] (32 bytes) and [common.Address] (20 bytes). *)
Definition Hash := bytes.
Definition Address := bytes.

(** [common.Address{}]. *)
Definition zero_Address : Address := repeat x00 20.

(** Modelled from the spec: [bindings.TaikoDataBlockMetadata] is declared in
    package [bindings], which is not among the available sources.  The
    fields are the ones the data model of the specification lists, under the
    names the code reads them by ([BlobUsed], [L1Height], [BlobHash]). *)
Record TaikoDataBlockMetadata : Type := {
  Id : Z;               (* uint64 *)
  L1Height : Z;         (* uint64 *)
  BlobUsed : bool;
  BlobHash : bytes      (* [32]byte *)
}.

(** One record of the beacon API's sidecar list; both fields are hexadecimal
    strings. *)
Record BeaconSidecar : Type := {
  KzgCommitment : string;
  Blob : string
}.

(** The fields of an L2 or L1 block header ([types.Header]) that the code
    reads. *)
Record Header : Type := {
  ParentHash : Hash;
  Root : Hash;
  Number : Z
}.

(** The on-chain transition returned by [TaikoL1.GetTransition], with the
    fields the data model of the specification lists; the code reads
    [Contester] and [Tier]. *)
Record TransitionState : Type := {
  ts_BlockHash : Hash;
  ts_StateRoot : Hash;
  Contester : Address;
  ts_Tier : Z           (* uint16 *)
}.

(** [bindings.TaikoDataTransition], as built by [SubmitContest]. *)
Record TaikoDataTransition : Type := {
  tr_ParentHash : Hash;
  tr_BlockHash : Hash;
  tr_StateRoot : Hash;
  Graffiti : bytes      (* [32]byte *)
}.

(** [bindings.TaikoDataTierProof]. *)
Record TaikoDataTierProof : Type := {
  tp_Tier : Z;          (* uint16 *)
  Data : bytes
}.

(** [proofProducer.ProofRequestOptions] and [proofProducer.ProofWithHeader]. *)
Record ProofRequestOptions : Type := {
  EventL1Hash : Hash;
  StateRoot : Hash
}.

Record ProofWithHeader : Type := {
  BlockID : Z;          (* big.Int *)
  Meta : TaikoDataBlockMetadata;
  pwh_Header : Header;
  Proof : bytes;
  Opts : ProofRequestOptions;
  Tier : Z              (* uint16 *)
}.

(** The result of a call that returns a value and an [error]. *)
Inductive result (E A : Type) : Type :=
| Ok (a : A)
| Err (e : E).
Arguments Ok {E A} a.
Arguments Err {E A} e.

(* ===================================================================== *)
(** * Collaborators, events and the execution monad *)
(* ===================================================================== *)

(** What lies outside the two packages: the state of the chains and of the
    beacon node ([World]), the type of the unsigned transactions of package
    [transaction] ([TxBuilder]), and three functions of other packages:
    [types.Header.Hash], [rpc.Blob.ToData] applied to the converted bytes
    ([None] when the call panics) and [encoding.TryParsingCustomError]. *)
Class Externals : Type := {
  World : Type;
  TxBuilder : Type;
  Header_Hash : Header -> Hash;
  Blob_ToData : bytes -> option (result error bytes);
  TryParsingCustomError : option error -> option error
}.

Inductive layer : Type := L1chain | L2chain.

Inductive level : Type := Info | Warn.

Inductive logval : Type :=
| LInt (z : Z)
| LStr (s : string)
| LBytes (b : bytes)
| LErr (e : option error).

Section Execution.
Context {ext : Externals}.

(** The calls made to the collaborators and the log lines written, in the
    order in which they happen.  [EvGetBlock], [EvRequestProof] and
    [EvDeliver] belong to the proof submitter: the read of a block's stored
    metadata, the dispatch to the proof producer, and the delivery of a
    proof onto the channel. *)
Inductive event : Type :=
| EvGetBlobs (slot : Z)
| EvGetTransition (blockID : Z) (parentHash : Hash)
| EvHeaderByNumber (chain : layer) (number : Z)
| EvBuild (blockID : Z) (meta : TaikoDataBlockMetadata)
          (transition : TaikoDataTransition) (tierProof : TaikoDataTierProof)
          (flag : bool)
| EvSend (proofWithHeader : ProofWithHeader) (tx : TxBuilder)
| EvGetBlock (blockID : Z)
| EvRequestProof (opts : ProofRequestOptions)
| EvDeliver (proofWithHeader : ProofWithHeader)
| EvLog (lvl : level) (msg : string) (ctx : list (string * logval)).

(** A computation runs in a world, leaves a world, and yields a value unless
    it panics ([None]); the events it causes are collected. *)
Definition M (A : Type) : Type := World -> option A * World * list event.

Definition ret {A} (a : A) : M A := fun w => (Some a, w, []).

Definition bind {A B} (m : M A) (f : A -> M B) : M B :=
  fun w =>
    match m w with
    | (Some a, w1, t1) =>
        match f a w1 with
        | (r, w2, t2) => (r, w2, t1 ++ t2)
        end
    | (None, w1, t1) => (None, w1, t1)
    end.

Definition panic {A} : M A := fun w => (None, w, []).

Definition emit (e : event) : M unit := fun w => (Some tt, w, [e]).

Definition ask {A} (f : World -> A) : M A := fun w => (Some (f w), w, []).

Definition value_of {A} (r : option A * World * list event) : option A := fst (fst r).
Definition world_of {A} (r : option A * World * list event) : World := snd (fst r).
Definition events_of {A} (r : option A * World * list event) : list event := snd r.

End Execution.

Declare Scope go_scope.
Delimit Scope go_scope with go.
Notation "x <- m ;; k" := (bind m (fun x => k))
  (at level 61, m at next level, right associativity) : go_scope.
Notation "m ;; k" := (bind m (fun _ => k))
  (at level 61, right associativity) : go_scope.
Local Open Scope go_scope.

Section Collaborators.
Context {ext : Externals}.

(** [rpc.Client] with the four clients the code reaches through it.  A read
    answers from the world and leaves it as it is. *)
Record BeaconClient : Type := {
  blobs_at : World -> Z -> result error (list BeaconSidecar)
}.

Record TaikoL1Client : Type := {
  transition_at : World -> Z -> Hash -> result error TransitionState
}.

Record EthClient : Type := {
  chain : layer;
  header_at : World -> Z -> result error Header
}.

Record rpc_Client : Type := {
  L1Beacon : BeaconClient;
  TaikoL1 : TaikoL1Client;
  L1 : EthClient;
  L2 : EthClient
}.

(** [transaction.ProveBlockTxBuilder] and [transaction.Sender]: building is
    a function of the arguments; sending may change the world. *)
Record ProveBlockTxBuilder : Type := {
  built : Z -> TaikoDataBlockMetadata -> TaikoDataTransition ->
          TaikoDataTierProof -> bool -> TxBuilder
}.

Record transaction_Sender : Type := {
  sent : World -> ProofWithHeader -> TxBuilder -> option error * World
}.

Definition GetBlobs (b : BeaconClient) (slot : Z) : M (result error (list BeaconSidecar)) :=
  emit (EvGetBlobs slot) ;; ask (fun w => blobs_at b w slot).

Definition GetTransition (t : TaikoL1Client) (blockID : Z) (parentHash : Hash)
  : M (result error TransitionState) :=
  emit (EvGetTransition blockID parentHash) ;;
  ask (fun w => transition_at t w blockID parentHash).

Definition HeaderByNumber (c : EthClient) (number : Z) : M (result error Header) :=
  emit (EvHeaderByNumber (chain c) number) ;; ask (fun w => header_at c w number).

Definition Build (b : ProveBlockTxBuilder) (blockID : Z) (meta : TaikoDataBlockMetadata)
    (transition : TaikoDataTransition) (tierProof : TaikoDataTierProof) (flag : bool)
  : M TxBuilder :=
  emit (EvBuild blockID meta transition tierProof flag) ;;
  ret (built b blockID meta transition tierProof flag).

Definition Send (s : transaction_Sender) (p : ProofWithHeader) (tx : TxBuilder)
  : M (option error) :=
  emit (EvSend p tx) ;;
  fun w => let '(e, w') := sent s w p tx in (Some e, w', []).

Definition log_Info (msg : string) (ctx : list (string * logval)) : M unit :=
  emit (EvLog Info msg ctx).

Definition log_Warn (msg : string) (ctx : list (string * logval)) : M unit :=
  emit (EvLog Warn msg ctx).

End Collaborators.

(* ===================================================================== *)
(** * Package txlistdecoder: [BlobFetcher.Fetch] *)
(* ===================================================================== *)

(** Modelled from the spec: [errBlobUnused] and [errSidecarNotFound] are
    package-level variables declared in a file of the package that is not
    among the available sources; the specification keeps the two kinds
    apart.  Being unexported, no other package can return them: an error
    that comes from a collaborator is [external]. *)
Inductive FetchError : Type :=
| errBlobUnused
| errSidecarNotFound
| external (e : error).

Section TxListDecoder.
Context {ext : Externals}.

Record BlobFetcher : Type := { rpc : rpc_Client }.

Definition NewBlobTxListFetcher (rpc : rpc_Client) : BlobFetcher := {| rpc := rpc |}.

(** The blob hash computed for a sidecar ([blob.go], lines 54-57); [None]
    when the conversion to [kzg4844.Commitment] panics. *)
Definition sidecarBlobHash (sidecar : BeaconSidecar) : option Hash :=
  option_map CalcBlobHashV1 (kzg4844_Commitment (FromHex (KzgCommitment sidecar))).

(** The loop of [Fetch] ([blob.go], lines 46-64), from index [i] on. *)
Fixpoint Fetch_range (meta : TaikoDataBlockMetadata) (i : nat)
    (sidecars : list BeaconSidecar) : M (result FetchError bytes) :=
  match sidecars with
  | [] => ret (Err errSidecarNotFound)
  | sidecar :: rest =>
      log_Info "Block sidecar"
        [("index", LInt (Z.of_nat i));
         ("KzgCommitment", LStr (KzgCommitment sidecar));
         ("blobHash", LStr (Bytes2Hex (BlobHash meta)))] ;;
      match kzg4844_Commitment (FromHex (KzgCommitment sidecar)) with
      | None => panic
      | Some commitment =>
          if bytes_eqb (CalcBlobHashV1 commitment) (BytesToHash (BlobHash meta))
          then
            match Blob_ToData (FromHex (Blob sidecar)) with
            | None => panic
            | Some (Ok data) => ret (Ok data)
            | Some (Err err) => ret (Err (external err))
            end
          else Fetch_range meta (S i) rest
      end
  end.

(** [BlobFetcher.Fetch]; the placeholder transaction is not used. *)
Definition Fetch (d : BlobFetcher) (meta : TaikoDataBlockMetadata)
  : M (result FetchError bytes) :=
  if negb (BlobUsed meta) then ret (Err errBlobUnused)
  else
    r <- GetBlobs (L1Beacon (rpc d)) (uint64_add (L1Height meta) 1) ;;
    match r with
    | Err err => ret (Err (external err))
    | Ok sidecars =>
        log_Info "Fetch sidecars"
          [("slot", LInt (uint64_add (L1Height meta) 1));
           ("sidecars", LInt (Z.of_nat (List.length sidecars)))] ;;
        Fetch_range meta 0 sidecars
    end.

(** A sidecar whose computed blob hash is the one the metadata asks for, and
    one whose computed blob hash is another one. *)
Definition matches (meta : TaikoDataBlockMetadata) (sidecar : BeaconSidecar) : Prop :=
  sidecarBlobHash sidecar = Some (BlobHash meta).

Definition differs (meta : TaikoDataBlockMetadata) (sidecar : BeaconSidecar) : Prop :=
  exists h, sidecarBlobHash sidecar = Some h /\ h <> BlobHash meta.

(** What [Fetch] returns when it decodes the blob of [sidecar]
    ([blob.go], lines 59-60). *)
Definition decoded (sidecar : BeaconSidecar) : option (result FetchError bytes) :=
  match Blob_ToData (FromHex (Blob sidecar)) with
  | None => None
  | Some (Ok data) => Some (Ok data)
  | Some (Err err) => Some (Err (external err))
  end.

End TxListDecoder.

(* ===================================================================== *)
(** * Package submitter: [ProofContester.SubmitContest] *)
(* ===================================================================== *)

Section Contester.
Context {ext : Externals}.

Record ProofContester : Type := {
  pc_rpc : rpc_Client;
  txBuilder : ProveBlockTxBuilder;
  sender : transaction_Sender;
  graffiti : bytes      (* [32]byte *)
}.

(** [SubmitContest] (lines 46-125).  [blockID] and [proposedIn] are
    [big.Int]s, [tier] is a [uint16]. *)
Definition SubmitContest (c : ProofContester) (blockID proposedIn : Z)
    (parentHash : Hash) (meta : TaikoDataBlockMetadata) (tier : Z)
  : M (option error) :=
  (* Ensure the transition has not been contested yet. *)
  r <- GetTransition (TaikoL1 (pc_rpc c)) (big_Uint64 blockID) parentHash ;;
  match r with
  | Err err =>
      match TryParsingCustomError (Some err) with
      | None => panic         (* [Error()] called on a nil error *)
      | Some parsed =>
          if negb (Contains (Error parsed) "L1_") then
            log_Warn "Failed to get transition"
              [("blockID", LInt blockID);
               ("parentHash", LBytes parentHash);
               ("error", LErr (TryParsingCustomError (Some err)))] ;;
            ret None
          else ret (Some err)
      end
  | Ok transition =>
      (* If the transition has already been contested, return early. *)
      if negb (bytes_eqb (Contester transition) zero_Address) then
        log_Info "Transaction has already been contested"
          [("blockID", LInt blockID);
           ("parentHash", LBytes parentHash);
           ("contester", LBytes (Contester transition))] ;;
        ret None
      else
        (* Send the contest transaction. *)
        r <- HeaderByNumber (L2 (pc_rpc c)) blockID ;;
        match r with
        | Err err => ret (Some err)
        | Ok header =>
            r <- HeaderByNumber (L1 (pc_rpc c)) proposedIn ;;
            match r with
            | Err err => ret (Some err)
            | Ok l1HeaderProposedIn =>
                let proofWithHeader :=
                  {| BlockID := blockID;
                     Meta := meta;
                     pwh_Header := header;
                     Proof := [];
                     Opts := {| EventL1Hash := Header_Hash l1HeaderProposedIn;
                                StateRoot := Root header |};
                     Tier := tier |} in
                tx <- Build (txBuilder c) blockID meta
                        {| tr_ParentHash := ParentHash header;
                           tr_BlockHash := Header_Hash header;
                           tr_StateRoot := Root header;
                           Graffiti := graffiti c |}
                        {| tp_Tier := ts_Tier transition;
                           Data := [] |}
                        false ;;
                e <- Send (sender c) proofWithHeader tx ;;
                ret (TryParsingCustomError e)
            end
        end
  end.

(** The transition, the tier proof and the proof with header that
    [SubmitContest] makes (lines 97-120), given the transition read from the
    chain and the two headers. *)
Definition contestTransition (c : ProofContester) (header : Header) : TaikoDataTransition :=
  {| tr_ParentHash := ParentHash header;
     tr_BlockHash := Header_Hash header;
     tr_StateRoot := Root header;
     Graffiti := graffiti c |}.

Definition contestTierProof (transition : TransitionState) : TaikoDataTierProof :=
  {| tp_Tier := ts_Tier transition; Data := [] |}.

Definition contestProofWithHeader (blockID : Z) (meta : TaikoDataBlockMetadata) (tier : Z)
    (header l1HeaderProposedIn : Header) : ProofWithHeader :=
  {| BlockID := blockID;
     Meta := meta;
     pwh_Header := header;
     Proof := [];
     Opts := {| EventL1Hash := Header_Hash l1HeaderProposedIn; StateRoot := Root header |};
     Tier := tier |}.

End Contester.

(* ===================================================================== *)
(** * Package submitter: [ProofSubmitter] *)
(* ===================================================================== *)

(** [context.Canceled] and [context.DeadlineExceeded] of the Go library. *)
Definition context_Canceled : error := errors_New "context canceled".
Definition context_DeadlineExceeded : error := errors_New "context deadline exceeded".

(** A [context.Context] seen from a waiting call: [Err_at ctx n] is what
    [ctx.Err()] answers at the [n]-th time the call looks at it; [None]
    while the context is neither cancelled nor past its deadline. *)
Record Context : Type := { Err_at : nat -> option error }.

(** [bindings.TaikoL1ClientBlockProposed]: the block id, the metadata and
    the hash of the L1 block that holds the event. *)
Record BlockProposed : Type := {
  ev_BlockId : Z;
  ev_Meta : TaikoDataBlockMetadata;
  ev_L1Hash : Hash
}.

(** How a call that may still be suspended stands. *)
Inductive returned (A : Type) : Type :=
| Returned (a : A)
| Suspended.
Arguments Returned {A} a.
Arguments Suspended {A}.

Definition meta_eqb (a b : TaikoDataBlockMetadata) : bool :=
  (Id a =? Id b) && (L1Height a =? L1Height b)
  && Bool.eqb (BlobUsed a) (BlobUsed b) && bytes_eqb (BlobHash a) (BlobHash b).

(** Modelled from the spec: the error of the metadata-not-found kind
    (section 7 of the specification); its declaration is not available. *)
Definition errMetadataNotFound : error := errors_New "metadata not found".

Section Submitter.
Context {ext : Externals}.

(** Modelled from the spec: the reader of a block's on-chain metadata by
    block id (section 6, block-by-id lookup) and the proof producer
    (section 6): [completes p w opts n] is the outcome of the producer's call
    if it has completed when the caller looks for the [n]-th time. *)
Record BlockReader : Type := {
  block_at : World -> Z -> result error TaikoDataBlockMetadata
}.

Record ProofProducer : Type := {
  completes : World -> ProofRequestOptions -> nat -> option (result error bytes)
}.

(** Modelled from the spec: the [ProofSubmitter] of section 4.3; the file
    that declares it is not among the available sources. *)
Record ProofSubmitter : Type := {
  ps_rpc : rpc_Client;
  ps_blocks : BlockReader;
  proofProducer : ProofProducer;
  ps_txBuilder : ProveBlockTxBuilder;
  ps_sender : transaction_Sender;
  ps_graffiti : bytes;
  ps_tier : Z
}.

Definition GetBlock (b : BlockReader) (blockID : Z)
  : M (result error TaikoDataBlockMetadata) :=
  emit (EvGetBlock blockID) ;; ask (fun w => block_at b w blockID).

(** Modelled from the spec: [SubmitProof] of section 4.3.  The block's
    on-chain metadata is read again by block id and compared field by field
    with the metadata of the proof; the prove transaction is built with the
    graffiti, the tier and the proof bytes of the input, and sent. *)
Definition SubmitProof (s : ProofSubmitter) (p : ProofWithHeader) : M (option error) :=
  r <- GetBlock (ps_blocks s) (BlockID p) ;;
  match r with
  | Err err => ret (Some err)
  | Ok stored =>
      if negb (meta_eqb stored (Meta p)) then ret (Some errMetadataNotFound)
      else
        tx <- Build (ps_txBuilder s) (BlockID p) (Meta p)
                {| tr_ParentHash := ParentHash (pwh_Header p);
                   tr_BlockHash := Header_Hash (pwh_Header p);
                   tr_StateRoot := Root (pwh_Header p);
                   Graffiti := ps_graffiti s |}
                {| tp_Tier := Tier p; Data := Proof p |}
                false ;;
        e <- Send (ps_sender s) p tx ;;
        ret (TryParsingCustomError e)
  end.

(** Modelled from the spec: the wait of [RequestProof] (section 4.3); at
    each look the context is consulted first, then the producer; [None] when
    the looks run out. *)
Fixpoint await (looks n : nat) (ctx : Context)
    (job : nat -> option (result error bytes)) : option (result error bytes) :=
  match looks with
  | O => None
  | S looks' =>
      match Err_at ctx n with
      | Some e => Some (Err e)
      | None =>
          match job n with
          | Some r => Some r
          | None => await looks' (S n) ctx job
          end
      end
  end.

(** Modelled from the spec: [RequestProof] of section 4.3.  A context that
    is already done makes the call return its error at once.  Otherwise the
    request options are made from the event and the L2 header, the producer
    is called, and the call stays suspended until the producer completes
    (the proof is delivered onto the channel), the context is cancelled or
    its deadline elapses.  [looks] bounds how long the call is followed. *)
Definition RequestProof (s : ProofSubmitter) (ctx : Context) (event : BlockProposed)
    (looks : nat) : M (returned (option error)) :=
  match Err_at ctx 0 with
  | Some e => ret (Returned (Some e))
  | None =>
      r <- HeaderByNumber (L2 (ps_rpc s)) (ev_BlockId event) ;;
      match r with
      | Err err => ret (Returned (Some err))
      | Ok header =>
          let opts := {| EventL1Hash := ev_L1Hash event; StateRoot := Root header |} in
          emit (EvRequestProof opts) ;;
          job <- ask (fun w => completes (proofProducer s) w opts) ;;
          match await looks 0 ctx job with
          | None => ret Suspended
          | Some (Err e) => ret (Returned (Some e))
          | Some (Ok proof) =>
              emit (EvDeliver {| BlockID := ev_BlockId event;
                                 Meta := ev_Meta event;
                                 pwh_Header := header;
                                 Proof := proof;
                                 Opts := opts;
                                 Tier := ps_tier s |}) ;;
              ret (Returned None)
          end
      end
  end.

End Submitter.

(** The events of a run that are submissions, and those that are builds. *)
Definition is_send {ext : Externals} (e : event) : bool :=
  match e with EvSend _ _ => true | _ => false end.

Definition is_build {ext : Externals} (e : event) : bool :=
  match e with EvBuild _ _ _ _ _ => true | _ => false end.

(** How many transactions a run submits, and how many it builds. *)
Definition submissions {ext : Externals} (t : list event) : nat :=
  List.length (filter is_send t).

Definition builds {ext : Externals} (t : list event) : nat :=
  List.length (filter is_build t).

Definition is_network {ext : Externals} (e : event) : bool :=
  match e with
  | EvLog _ _ _ => false
  | _ => true
  end.

(* ===================================================================== *)
(** * Package txlistdecoder: the log lines of [Fetch] *)
(* ===================================================================== *)

(** The line [Fetch] writes for the sidecar at index [i] ([blob.go], lines
    47-52), and the lines for a run of sidecars from index [i] on. *)
Definition blockSidecarLog {ext : Externals} (meta : TaikoDataBlockMetadata) (i : nat)
    (sidecar : BeaconSidecar) : event :=
  EvLog Info "Block sidecar"
    [("index", LInt (Z.of_nat i));
     ("KzgCommitment", LStr (KzgCommitment sidecar));
     ("blobHash", LStr (Bytes2Hex (BlobHash meta)))].

Fixpoint blockSidecarLogs {ext : Externals} (meta : TaikoDataBlockMetadata) (i : nat)
    (sidecars : list BeaconSidecar) : list event :=
  match sidecars with
  | [] => []
  | sidecar :: rest => blockSidecarLog meta i sidecar :: blockSidecarLogs meta (S i) rest
  end.

(** The line written once the beacon has answered ([blob.go], line 43). *)
Definition fetchSidecarsLog {ext : Externals} (meta : TaikoDataBlockMetadata)
    (sidecars : list BeaconSidecar) : event :=
  EvLog Info "Fetch sidecars"
    [("slot", LInt (uint64_add (L1Height meta) 1));
     ("sidecars", LInt (Z.of_nat (List.length sidecars)))].

(* ===================================================================== *)
(** * Package driver: [NewConfigFromCliContext] *)
(* ===================================================================== *)

(** [common.BytesToAddress]: the last 20 bytes, left-padded with zeros; and
    [common.HexToAddress]. *)
Definition BytesToAddress (b : bytes) : Address :=
  let b := skipn (List.length b - 20) b in
  repeat x00 (20 - List.length b) ++ b.

Definition HexToAddress (s : string) : Address := BytesToAddress (FromHex s).

(** The flags of package [flags] that [NewConfigFromCliContext] reads.  The
    package is not among the available sources: a flag is known by its
    identifier, which stands for its name. *)
Inductive flag : Type :=
| flags_JWTSecret
| flags_P2PSyncVerifiedBlocks
| flags_CheckPointSyncURL
| flags_L1BeaconEndpoint
| flags_RPCTimeout
| flags_L1WSEndpoint
| flags_L2WSEndpoint
| flags_TaikoL1Address
| flags_TaikoL2Address
| flags_L2AuthEndpoint
| flags_BackOffRetryInterval
| flags_P2PSyncTimeout.

(** A [cli.Context], by what its methods [String], [Bool], [Duration] and
    [IsSet] answer for a flag; a [time.Duration] is a number of
    nanoseconds. *)
Record cli_Context : Type := {
  cli_String : flag -> string;
  cli_Bool : flag -> bool;
  cli_Duration : flag -> Z;
  cli_IsSet : flag -> bool
}.

(** The fields of [rpc.ClientConfig] that [NewConfigFromCliContext] sets
    ([config.go], lines 48-58). *)
Record rpc_ClientConfig : Type := {
  L1Endpoint : string;
  L1BeaconEndpoint : string;
  L2Endpoint : string;
  L2CheckPoint : string;
  TaikoL1Address : Address;
  TaikoL2Address : Address;
  L2EngineEndpoint : string;
  JwtSecret : string;
  cc_Timeout : Z
}.

(** [driver.Config] ([config.go], lines 17-23). *)
Record Config : Type := {
  ClientConfig : rpc_ClientConfig;
  P2PSyncVerifiedBlocks : bool;
  P2PSyncTimeout : Z;
  RPCTimeout : Z;
  RetryInterval : Z
}.

(** [NewConfigFromCliContext] ([config.go], lines 27-64).
    [ParseSecretFromFile] is [jwt.ParseSecretFromFile], a function of
    another package that reads the file of that name; [fmt.Errorf] with
    [%w] puts the message of the error after the text. *)
Definition NewConfigFromCliContext
    (ParseSecretFromFile : string -> result error bytes) (c : cli_Context)
  : result error Config :=
  match ParseSecretFromFile (cli_String c flags_JWTSecret) with
  | Err err => Err (errors_New ("invalid JWT secret file: " ++ Error err))
  | Ok jwtSecret =>
      let p2pSyncVerifiedBlocks := cli_Bool c flags_P2PSyncVerifiedBlocks in
      let l2CheckPoint := cli_String c flags_CheckPointSyncURL in
      if p2pSyncVerifiedBlocks && (String.length l2CheckPoint =? 0)%nat then
        Err (errors_New "empty L2 check point URL")
      else if negb (cli_IsSet c flags_L1BeaconEndpoint) then
        Err (errors_New "empty L1 beacon endpoint")
      else
        let timeout := cli_Duration c flags_RPCTimeout in
        Ok {| ClientConfig :=
                {| L1Endpoint := cli_String c flags_L1WSEndpoint;
                   L1BeaconEndpoint := cli_String c flags_L1BeaconEndpoint;
                   L2Endpoint := cli_String c flags_L2WSEndpoint;
                   L2CheckPoint := l2CheckPoint;
                   TaikoL1Address := HexToAddress (cli_String c flags_TaikoL1Address);
                   TaikoL2Address := HexToAddress (cli_String c flags_TaikoL2Address);
                   L2EngineEndpoint := cli_String c flags_L2AuthEndpoint;
                   JwtSecret := string_of_list_byte jwtSecret;
                   cc_Timeout := timeout |};
              RetryInterval := cli_Duration c flags_BackOffRetryInterval;
              P2PSyncVerifiedBlocks := p2pSyncVerifiedBlocks;
              P2PSyncTimeout := cli_Duration c flags_P2PSyncTimeout;
              RPCTimeout := timeout |}
  end.

(* ===================================================================== *)
(** * A small concrete world *)
(* ===================================================================== *)

(** A world in which the definitions above run: the chain remembers which
    transitions have been contested, a built transaction is the tuple of the
    arguments it was built from, and sending a transaction records a contest
    for the block and parent hash it names. *)
Module Demo.

Definition h32 (n : Z) : Hash := sha256.be_bytes 32 n.

Definition prover : Address := sha256.be_bytes 20 0xc0ffee.

Definition key_eqb (a b : Z * Hash) : bool :=
  (fst a =? fst b) && bytes_eqb (snd a) (snd b).

#[export] Instance ext : Externals := {|
  World := list (Z * Hash);
  TxBuilder := Z * TaikoDataBlockMetadata * TaikoDataTransition * TaikoDataTierProof * bool;
  Header_Hash := fun h => sha256.Sum256 (ParentHash h ++ Root h ++ sha256.be_bytes 8 (Number h));
  Blob_ToData := fun b =>
    match b with
    | [] => Some (Err (errors_New "empty blob"))
    | _ => Some (Ok b)
    end;
  TryParsingCustomError := fun e => e
|}.

Definition commitment (n : Z) : string := "0x" ++ Bytes2Hex (sha256.be_bytes 48 n).

Definition sidecarA : BeaconSidecar := {| KzgCommitment := commitment 1; Blob := "0xaa01" |}.
Definition sidecarB : BeaconSidecar := {| KzgCommitment := commitment 2; Blob := "0xbb02" |}.
Definition sidecarB' : BeaconSidecar := {| KzgCommitment := commitment 2; Blob := "0xbb03" |}.
Definition sidecarC : BeaconSidecar := {| KzgCommitment := commitment 3; Blob := "0xcc04" |}.
Definition sidecarShort : BeaconSidecar := {| KzgCommitment := "0x1234"; Blob := "0xdd05" |}.

Definition hashOf (n : Z) : Hash := CalcBlobHashV1 (sha256.be_bytes 48 n).

Definition header (n : Z) : Header :=
  {| ParentHash := h32 (n - 1); Root := h32 (1000 + n); Number := n |}.

(** Slot 101 holds four sidecars, two of them with the same commitment;
    slot 201 holds a sidecar whose commitment is too short.  Block 7 has a
    transition on chain for parent [h32 6], block 8 makes the contract answer
    with one of its own errors, any other block makes the read fail
    otherwise.  L2 has headers up to 100. *)
Definition client : rpc_Client := {|
  L1Beacon := {| blobs_at := fun _ slot =>
                   if slot =? 101 then Ok [sidecarA; sidecarB; sidecarB'; sidecarC]
                   else if slot =? 201 then Ok [sidecarA; sidecarShort; sidecarB]
                   else Err (errors_New "slot not found") |};
  TaikoL1 := {| transition_at := fun w blockID parentHash =>
                  if (blockID =? 7) && bytes_eqb parentHash (h32 6) then
                    Ok {| ts_BlockHash := h32 77; ts_StateRoot := h32 78;
                          Contester := if existsb (key_eqb (blockID, parentHash)) w
                                       then prover else zero_Address;
                          ts_Tier := 200 |}
                  else if blockID =? 8 then Err (errors_New "L1_TRANSITION_NOT_FOUND")
                  else Err (errors_New "connection refused") |};
  L1 := {| chain := L1chain; header_at := fun _ n => Ok (header n) |};
  L2 := {| chain := L2chain;
           header_at := fun _ n => if n <=? 100 then Ok (header n)
                                   else Err (errors_New "not found") |}
|}.

Definition builder : ProveBlockTxBuilder :=
  {| built := fun blockID meta transition tierProof flag =>
                (blockID, meta, transition, tierProof, flag) |}.

Definition txSender : transaction_Sender :=
  {| sent := fun w _ tx =>
       match tx with
       | (blockID, _, transition, _, _) =>
           (None, (big_Uint64 blockID, tr_ParentHash transition) :: w)
       end |}.

Definition contester : ProofContester :=
  {| pc_rpc := client; txBuilder := builder; sender := txSender;
     graffiti := sha256.be_bytes 4 0x74657374 ++ repeat x00 28 |}.

Definition fetcher : BlobFetcher := NewBlobTxListFetcher client.

Definition meta (height : Z) (used : bool) (hash : Hash) : TaikoDataBlockMetadata :=
  {| Id := 7; L1Height := height; BlobUsed := used; BlobHash := hash |}.

Definition meta7 : TaikoDataBlockMetadata := meta 100 true (hashOf 2).

(** The transition of block 7 on chain, once contested, and the world in
    which it is so. *)
Definition onChain (contester : Address) : TransitionState :=
  {| ts_BlockHash := h32 77; ts_StateRoot := h32 78; Contester := contester; ts_Tier := 200 |}.

Definition contestedWorld : list (Z * Hash) := [(7, h32 6)].

(** Block 7 was proposed with [meta 100 true (hashOf 2)]; the producer
    completes at the third look. *)
Definition submitter : ProofSubmitter :=
  {| ps_rpc := client;
     ps_blocks := {| block_at := fun _ blockID =>
                       if blockID =? 7 then Ok (meta 100 true (hashOf 2))
                       else Err (errors_New "block not found") |};
     proofProducer := {| completes := fun _ _ n =>
                           if (3 <=? n)%nat then Some (Ok [x01; x02]) else None |};
     ps_txBuilder := builder;
     ps_sender := txSender;
     ps_graffiti := sha256.be_bytes 4 0x74657374 ++ repeat x00 28;
     ps_tier := 100 |}.

(** A context cancelled at the second look, and one whose deadline has
    elapsed before the call. *)
Definition ctxCancelled : Context :=
  {| Err_at := fun n => if (2 <=? n)%nat then Some context_Canceled else None |}.

Definition ctxExpired : Context :=
  {| Err_at := fun _ => Some context_DeadlineExceeded |}.

Definition ctxBackground : Context := {| Err_at := fun _ => None |}.

Definition proposed7 : BlockProposed :=
  {| ev_BlockId := 7; ev_Meta := meta7; ev_L1Hash := h32 50 |}.

(** A proof for block 7 whose metadata says another L1 height than the one
    on chain. *)
Definition strayProof : ProofWithHeader :=
  {| BlockID := 7; Meta := meta 99 true (hashOf 2); pwh_Header := header 7;
     Proof := repeat xff 100;
     Opts := {| EventL1Hash := h32 50; StateRoot := h32 1007 |};
     Tier := 100 |}.

End Demo.

(** Command lines for [NewConfigFromCliContext]: the secret is read from
    [jwt.hex] and from no other file; [line] has every flag set, the others
    leave one thing out. *)
Module DemoCli.

Definition files (name : string) : result error bytes :=
  if String.eqb name "jwt.hex" then Ok (repeat xab 32)
  else Err (errors_New "open: no such file or directory").

Definition line : cli_Context :=
  {| cli_String := fun f =>
       match f with
       | flags_JWTSecret => "jwt.hex"
       | flags_CheckPointSyncURL => "https://checkpoint.example"
       | flags_L1BeaconEndpoint => "http://beacon:5052"
       | flags_L1WSEndpoint => "ws://l1:8546"
       | flags_L2WSEndpoint => "ws://l2:8546"
       | flags_L2AuthEndpoint => "http://l2:8551"
       | flags_TaikoL1Address => "0x00000000000000000000000000000000000000a1"
       | flags_TaikoL2Address => "0x1670010000000000000000000000000000010001"
       | _ => ""
       end;
     cli_Bool := fun f => match f with flags_P2PSyncVerifiedBlocks => true | _ => false end;
     cli_Duration := fun f =>
       match f with
       | flags_RPCTimeout => 12000000000
       | flags_BackOffRetryInterval => 5000000000
       | flags_P2PSyncTimeout => 3600000000000
       | _ => 0
       end;
     cli_IsSet := fun _ => true |}.

Definition with_String (c : cli_Context) (g : flag) (v : string) : cli_Context :=
  {| cli_String := fun f =>
       match f, g with
       | flags_JWTSecret, flags_JWTSecret
       | flags_CheckPointSyncURL, flags_CheckPointSyncURL
       | flags_L1BeaconEndpoint, flags_L1BeaconEndpoint
       | flags_TaikoL1Address, flags_TaikoL1Address => v
       | _, _ => cli_String c f
       end;
     cli_Bool := cli_Bool c;
     cli_Duration := cli_Duration c;
     cli_IsSet := cli_IsSet c |}.

Definition without_beacon (c : cli_Context) : cli_Context :=
  {| cli_String := cli_String c;
     cli_Bool := cli_Bool c;
     cli_Duration := cli_Duration c;
     cli_IsSet := fun f => match f with flags_L1BeaconEndpoint => false | _ => cli_IsSet c f end |}.

End DemoCli.

(** Two more contesters for the small world: one whose L2 node has no
    header yet for block 7, one whose L1 node fails; and a sidecar whose
    commitment has one byte too many. *)
Module DemoLate.

Definition noL2 : rpc_Client :=
  {| L1Beacon := L1Beacon Demo.client;
     TaikoL1 := TaikoL1 Demo.client;
     L1 := L1 Demo.client;
     L2 := {| chain := L2chain;
              header_at := fun _ n => if n <=? 5 then Ok (Demo.header n)
                                      else Err (errors_New "not found") |} |}.

Definition noL1 : rpc_Client :=
  {| L1Beacon := L1Beacon Demo.client;
     TaikoL1 := TaikoL1 Demo.client;
     L1 := {| chain := L1chain;
              header_at := fun _ _ => Err (errors_New "connection reset") |};
     L2 := L2 Demo.client |}.

Definition contesterNoL2 : ProofContester :=
  {| pc_rpc := noL2; txBuilder := Demo.builder; sender := Demo.txSender;
     graffiti := graffiti Demo.contester |}.

Definition contesterNoL1 : ProofContester :=
  {| pc_rpc := noL1; txBuilder := Demo.builder; sender := Demo.txSender;
     graffiti := graffiti Demo.contester |}.

Definition sidecarLong : BeaconSidecar :=
  {| KzgCommitment := (Demo.commitment 2 ++ "ff")%string; Blob := "0xee06" |}.

End DemoLate.


(* ===================================================================== *)
(** * Properties *)
(* ===================================================================== *)

(** The library functions are not unfolded while a proof simplifies. *)
Arguments BytesToHash : simpl never.
Arguments CalcBlobHashV1 : simpl never.
Arguments FromHex : simpl never.
Arguments Bytes2Hex : simpl never.
Arguments kzg4844_Commitment : simpl never.
Arguments uint64_add : simpl never.
Arguments big_Uint64 : simpl never.
Arguments Contains : simpl never.
Arguments zero_Address : simpl never.

(** ** Bytes and hashes *)

Lemma bytes_eqb_eq (a b : bytes) : bytes_eqb a b = true <-> a = b.
Proof.
  revert b; induction a as [|x a IH]; intros [|y b]; simpl; split;
    try congruence; try reflexivity.
  - intros H. apply andb_true_iff in H as [Hx Hab].
    apply Byte.byte_dec_bl in Hx. apply IH in Hab. congruence.
  - intros H. injection H as -> ->. apply andb_true_iff. split.
    + apply Byte.byte_dec_lb. reflexivity.
    + apply IH. reflexivity.
Qed.

Lemma bytes_eqb_neq (a b : bytes) : bytes_eqb a b = false <-> a <> b.
Proof.
  split.
  - intros H Heq. apply bytes_eqb_eq in Heq. congruence.
  - intros H. destruct (bytes_eqb a b) eqn:E; [|reflexivity].
    apply bytes_eqb_eq in E. contradiction.
Qed.

Arguments bytes_eqb : simpl never.

(** On 32 bytes [common.BytesToHash] changes nothing. *)
Lemma BytesToHash_32 (b : bytes) : List.length b = 32%nat -> BytesToHash b = b.
Proof.
  intros H. unfold BytesToHash. rewrite H. cbn [Nat.sub skipn]. rewrite H. reflexivity.
Qed.

Lemma meta_eqb_eq (a b : TaikoDataBlockMetadata) : meta_eqb a b = true <-> a = b.
Proof.
  unfold meta_eqb. rewrite !andb_true_iff, !Z.eqb_eq, Bool.eqb_true_iff, bytes_eqb_eq.
  destruct a, b; simpl. split.
  - intros [[[-> ->] ->] ->]. reflexivity.
  - intros H. injection H as -> -> -> ->. auto.
Qed.

(** ** The library functions on known values *)

Example Sum256_empty :
  Bytes2Hex (sha256.Sum256 []) =
  "e3b0c44298fc1c149afbf4c8996fb92427ae41e4649b934ca495991b7852b855".
Proof. vm_compute. reflexivity. Qed.

Example Sum256_abc :
  Bytes2Hex (sha256.Sum256 ["a"%byte; "b"%byte; "c"%byte]) =
  "ba7816bf8f01cfea414140de5dae2223b00361a396177a9cb410ff61f20015ad".
Proof. vm_compute. reflexivity. Qed.

(** A message of more than one block. *)
Example Sum256_two_blocks :
  Bytes2Hex (sha256.Sum256 (repeat "a"%byte 100)) =
  "2816597888e4a0d3a36b82b83316ab32680eb8f00f8cd3b904d681246d285a0e".
Proof. vm_compute. reflexivity. Qed.

Example FromHex_prefix_and_odd : Bytes2Hex (FromHex "0xabC1f") = "0abc1f".
Proof. vm_compute. reflexivity. Qed.

Example FromHex_invalid_digit : FromHex "12zz34" = [x12].
Proof. vm_compute. reflexivity. Qed.

Example CalcBlobHashV1_version :
  Bytes2Hex (CalcBlobHashV1 (sha256.be_bytes 48 2)) =
  "0161232ae7f1858ff1ef6fc7925ae396030268f8771a3551c3a13994b17d701f".
Proof. vm_compute. reflexivity. Qed.

Example Contains_reserved :
  Contains "execution reverted: L1_TRANSITION_NOT_FOUND" "L1_" = true /\
  Contains "connection refused" "L1_" = false.
Proof. split; vm_compute; reflexivity. Qed.

Example big_Uint64_wraps : big_Uint64 (2 ^ 64 + 5) = 5 /\ big_Uint64 (-3) = 3.
Proof. split; vm_compute; reflexivity. Qed.

(** ** Running the monad *)

Section Running.
Context {ext : Externals}.

Lemma value_of_bind {A B} (m : M A) (f : A -> M B) (w : World) :
  value_of (bind m f w) =
  match value_of (m w) with
  | Some a => value_of (f a (world_of (m w)))
  | None => None
  end.
Proof.
  unfold bind, value_of, world_of. destruct (m w) as [[[a|] w1] t1]; simpl; [|reflexivity].
  destruct (f a w1) as [[r w2] t2]. reflexivity.
Qed.

Lemma world_of_bind {A B} (m : M A) (f : A -> M B) (w : World) :
  world_of (bind m f w) =
  match value_of (m w) with
  | Some a => world_of (f a (world_of (m w)))
  | None => world_of (m w)
  end.
Proof.
  unfold bind, value_of, world_of. destruct (m w) as [[[a|] w1] t1]; simpl; [|reflexivity].
  destruct (f a w1) as [[r w2] t2]. reflexivity.
Qed.

Lemma events_of_bind {A B} (m : M A) (f : A -> M B) (w : World) :
  events_of (bind m f w) =
  match value_of (m w) with
  | Some a => events_of (m w) ++ events_of (f a (world_of (m w)))
  | None => events_of (m w)
  end.
Proof.
  unfold bind, value_of, world_of, events_of.
  destruct (m w) as [[[a|] w1] t1]; simpl; [|reflexivity].
  destruct (f a w1) as [[r w2] t2]. reflexivity.
Qed.

End Running.

(** ** [BlobFetcher.Fetch] *)

Section FetchProperties.
Context {ext : Externals}.

(** One turn of the loop, as far as the returned value goes. *)
Lemma Fetch_range_cons meta i sidecar rest w :
  value_of (Fetch_range meta i (sidecar :: rest) w) =
  match sidecarBlobHash sidecar with
  | None => None
  | Some h =>
      if bytes_eqb h (BytesToHash (BlobHash meta)) then decoded sidecar
      else value_of (Fetch_range meta (S i) rest w)
  end.
Proof.
  cbn [Fetch_range]. rewrite value_of_bind. cbn.
  unfold sidecarBlobHash, decoded.
  destruct (kzg4844_Commitment (FromHex (KzgCommitment sidecar))) as [c|]; cbn; [|reflexivity].
  destruct (bytes_eqb (CalcBlobHashV1 c) (BytesToHash (BlobHash meta))); [|reflexivity].
  destruct (Blob_ToData (FromHex (Blob sidecar))) as [[data|err]|]; reflexivity.
Qed.

Lemma Fetch_range_nil meta i w :
  value_of (Fetch_range meta i [] w) = Some (Err errSidecarNotFound).
Proof. reflexivity. Qed.

(** The loop reads and writes nothing in the world. *)
Lemma Fetch_range_world meta sidecars : forall i w,
  world_of (Fetch_range meta i sidecars w) = w.
Proof.
  induction sidecars as [|s rest IH]; intros i w; [reflexivity|].
  cbn [Fetch_range]. rewrite world_of_bind. cbn.
  destruct (kzg4844_Commitment (FromHex (KzgCommitment s))) as [c|]; cbn; [|reflexivity].
  destruct (bytes_eqb (CalcBlobHashV1 c) (BytesToHash (BlobHash meta))); [|apply IH].
  destruct (Blob_ToData (FromHex (Blob s))) as [[data|err]|]; reflexivity.
Qed.

(** The loop writes log lines only. *)
Lemma Fetch_range_events meta sidecars : forall i w e,
  In e (events_of (Fetch_range meta i sidecars w)) -> is_network e = false.
Proof.
  induction sidecars as [|s rest IH]; intros i w e; [intros []|].
  cbn [Fetch_range]. rewrite events_of_bind. cbn.
  intros [<-|H]; [reflexivity|]. revert H.
  destruct (kzg4844_Commitment (FromHex (KzgCommitment s))) as [c|]; cbn; [|intros []].
  destruct (bytes_eqb (CalcBlobHashV1 c) (BytesToHash (BlobHash meta))); [|apply IH].
  destruct (Blob_ToData (FromHex (Blob s))) as [[data|err]|]; intros [].
Qed.

(** Sidecars whose hashes are other ones are passed over. *)
Lemma Fetch_range_differs meta pre rest : forall i w,
  List.length (BlobHash meta) = 32%nat ->
  Forall (differs meta) pre ->
  value_of (Fetch_range meta i (pre ++ rest) w) =
  value_of (Fetch_range meta (i + List.length pre) rest w).
Proof.
  induction pre as [|s pre IH]; intros i w H32 Hpre.
  - rewrite Nat.add_0_r. reflexivity.
  - inversion Hpre as [|? ? [h [Hh Hne]] Hpre']; subst.
    cbn [app]. rewrite Fetch_range_cons, Hh, BytesToHash_32 by assumption.
    apply bytes_eqb_neq in Hne. rewrite Hne.
    rewrite IH by assumption. cbn [List.length]. f_equal. f_equal. lia.
Qed.

(** A sidecar whose hash is the one asked for is decoded. *)
Lemma Fetch_range_matches meta i sidecar post w :
  List.length (BlobHash meta) = 32%nat ->
  matches meta sidecar ->
  value_of (Fetch_range meta i (sidecar :: post) w) = decoded sidecar.
Proof.
  intros H32 Hm. rewrite Fetch_range_cons, Hm, BytesToHash_32 by assumption.
  assert (E : bytes_eqb (BlobHash meta) (BlobHash meta) = true) by now apply bytes_eqb_eq.
  rewrite E. reflexivity.
Qed.

(** Data comes from the first sidecar whose hash is the one asked for. *)
Lemma Fetch_range_Ok_inv meta sidecars : forall i w data,
  List.length (BlobHash meta) = 32%nat ->
  value_of (Fetch_range meta i sidecars w) = Some (Ok data) ->
  exists pre sidecar post,
    sidecars = pre ++ sidecar :: post /\ Forall (differs meta) pre /\
    matches meta sidecar /\ Blob_ToData (FromHex (Blob sidecar)) = Some (Ok data).
Proof.
  induction sidecars as [|s rest IH]; intros i w data H32 H.
  - discriminate H.
  - rewrite Fetch_range_cons in H.
    destruct (sidecarBlobHash s) as [h|] eqn:Hh; [|discriminate H].
    rewrite BytesToHash_32 in H by assumption.
    destruct (bytes_eqb h (BlobHash meta)) eqn:E.
    + apply bytes_eqb_eq in E. subst h.
      exists [], s, rest. repeat split; auto.
      unfold decoded in H.
      destruct (Blob_ToData (FromHex (Blob s))) as [[d|err]|]; congruence.
    + apply bytes_eqb_neq in E.
      destruct (IH _ _ _ H32 H) as (pre & x & post & -> & Hpre & Hx & Hd).
      exists (s :: pre), x, post. repeat split; auto.
      constructor; [exists h; auto|assumption].
Qed.

Lemma decoded_not_missing sidecar : decoded sidecar <> Some (Err errSidecarNotFound).
Proof.
  unfold decoded. destruct (Blob_ToData (FromHex (Blob sidecar))) as [[d|err]|]; congruence.
Qed.

(** When every hash is computed, the loop ends with the sidecar-not-found
    error exactly when no hash is the one asked for. *)
Lemma Fetch_range_missing_iff meta sidecars : forall i w,
  List.length (BlobHash meta) = 32%nat ->
  Forall (fun s => sidecarBlobHash s <> None) sidecars ->
  value_of (Fetch_range meta i sidecars w) = Some (Err errSidecarNotFound) <->
  Forall (differs meta) sidecars.
Proof.
  induction sidecars as [|s rest IH]; intros i w H32 Hall.
  - split; [constructor|reflexivity].
  - inversion Hall as [|? ? Hs Hrest]; subst.
    rewrite Fetch_range_cons.
    destruct (sidecarBlobHash s) as [h|] eqn:Hh; [|congruence].
    rewrite BytesToHash_32 by assumption.
    destruct (bytes_eqb h (BlobHash meta)) eqn:E.
    + apply bytes_eqb_eq in E. subst h. split.
      * intros H. exfalso. exact (decoded_not_missing _ H).
      * intros H. inversion H as [|? ? [h' [Hh' Hne]] ?]; subst. congruence.
    + apply bytes_eqb_neq in E. rewrite (IH (S i) w H32 Hrest). split.
      * intros H. constructor; [exists h; auto|assumption].
      * intros H. inversion H; assumption.
Qed.

(** [Fetch] with [BlobUsed] set, once the beacon has answered. *)
Lemma Fetch_used (d : BlobFetcher) meta w sidecars :
  BlobUsed meta = true ->
  blobs_at (L1Beacon (rpc d)) w (uint64_add (L1Height meta) 1) = Ok sidecars ->
  value_of (Fetch d meta w) = value_of (Fetch_range meta 0 sidecars w).
Proof.
  intros Hused Hblobs. unfold Fetch. rewrite Hused. cbn [negb].
  rewrite value_of_bind. unfold GetBlobs. rewrite value_of_bind, world_of_bind. cbn.
  rewrite Hblobs. rewrite value_of_bind. reflexivity.
Qed.

(** While [L1Height + 1] fits 64 bits, the slot asked for is that number. *)
Lemma Fetch_slot meta :
  0 <= L1Height meta < 2 ^ 64 - 1 -> uint64_add (L1Height meta) 1 = L1Height meta + 1.
Proof. intros H. unfold uint64_add. apply Z.mod_small. lia. Qed.

(** A sidecar whose commitment has fewer than 48 bytes stops [Fetch] with a
    panic when the loop reaches it. *)
Lemma Fetch_range_short_commitment meta i pre sidecar post w :
  List.length (BlobHash meta) = 32%nat ->
  Forall (differs meta) pre ->
  (List.length (FromHex (KzgCommitment sidecar)) < 48)%nat ->
  value_of (Fetch_range meta i (pre ++ sidecar :: post) w) = None.
Proof.
  intros H32 Hpre Hshort. rewrite Fetch_range_differs by assumption.
  rewrite Fetch_range_cons. unfold sidecarBlobHash, kzg4844_Commitment.
  apply Nat.ltb_lt in Hshort. rewrite Hshort. reflexivity.
Qed.

End FetchProperties.

Section FetchClaims.
Context {ext : Externals}.

Lemma matches_or_differs meta sidecars :
  Forall (fun s => sidecarBlobHash s <> None) sidecars ->
  Forall (differs meta) sidecars \/
  exists sidecar, In sidecar sidecars /\ matches meta sidecar.
Proof.
  induction 1 as [|s rest Hs Hrest [IH|(x & Hin & Hx)]].
  - left. constructor.
  - destruct (sidecarBlobHash s) as [h|] eqn:Hh; [|congruence].
    destruct (bytes_eqb h (BlobHash meta)) eqn:E.
    + apply bytes_eqb_eq in E. subst h. right. exists s. split; [left; reflexivity|exact Hh].
    + apply bytes_eqb_neq in E. left. constructor; [exists h; auto|assumption].
  - right. exists x. split; [right; assumption|assumption].
Qed.

Lemma first_match meta sidecars :
  Forall (fun s => sidecarBlobHash s <> None) sidecars ->
  (exists sidecar, In sidecar sidecars /\ matches meta sidecar) ->
  exists pre sidecar post,
    sidecars = pre ++ sidecar :: post /\ Forall (differs meta) pre /\ matches meta sidecar.
Proof.
  induction 1 as [|s rest Hs Hrest IH]; intros (x & Hin & Hx); [destruct Hin|].
  destruct (sidecarBlobHash s) as [h|] eqn:Hh; [|congruence].
  destruct (bytes_eqb h (BlobHash meta)) eqn:E.
  - apply bytes_eqb_eq in E. subst h. exists [], s, rest. repeat split; auto.
  - apply bytes_eqb_neq in E. destruct Hin as [->|Hin].
    + unfold matches in Hx. congruence.
    + destruct IH as (pre & y & post & -> & Hpre & Hy); [exists x; auto|].
      exists (s :: pre), y, post. repeat split; auto.
      constructor; [exists h; auto|assumption].
Qed.

(** C1.  With [BlobUsed] set and the sidecar list the beacon returns for
    slot [L1Height + 1]: [Fetch] returns what the blob decoder returns on
    the first sidecar, in list order, whose computed blob hash equals
    [BlobHash] byte for byte; data that [Fetch] returns is decoded from such
    a sidecar; and, the hashes of all sidecars being computed, some sidecar
    has that hash if and only if [Fetch] returns what is decoded from the
    first such sidecar, if and only if [Fetch] ends otherwise than with the
    sidecar-not-found error. *)
Theorem Fetch_first_match (d : BlobFetcher) meta w sidecars :
  BlobUsed meta = true ->
  List.length (BlobHash meta) = 32%nat ->
  blobs_at (L1Beacon (rpc d)) w (uint64_add (L1Height meta) 1) = Ok sidecars ->
  (forall pre sidecar post,
      sidecars = pre ++ sidecar :: post ->
      Forall (differs meta) pre ->
      matches meta sidecar ->
      value_of (Fetch d meta w) = decoded sidecar) /\
  (forall data,
      value_of (Fetch d meta w) = Some (Ok data) ->
      exists pre sidecar post,
        sidecars = pre ++ sidecar :: post /\ Forall (differs meta) pre /\
        matches meta sidecar /\
        Blob_ToData (FromHex (Blob sidecar)) = Some (Ok data)) /\
  (Forall (fun s => sidecarBlobHash s <> None) sidecars ->
   ((exists sidecar, In sidecar sidecars /\ matches meta sidecar) <->
    (exists pre sidecar post,
        sidecars = pre ++ sidecar :: post /\ Forall (differs meta) pre /\
        matches meta sidecar /\ value_of (Fetch d meta w) = decoded sidecar)) /\
   ((exists sidecar, In sidecar sidecars /\ matches meta sidecar) <->
    value_of (Fetch d meta w) <> Some (Err errSidecarNotFound))).
Proof.
  intros Hused H32 Hblobs. rewrite (Fetch_used d meta w sidecars Hused Hblobs).
  assert (Hfirst : forall pre sidecar post,
             sidecars = pre ++ sidecar :: post ->
             Forall (differs meta) pre ->
             matches meta sidecar ->
             value_of (Fetch_range meta 0 sidecars w) = decoded sidecar).
  { intros pre sidecar post -> Hpre Hm.
    rewrite Fetch_range_differs by assumption. apply Fetch_range_matches; assumption. }
  split; [exact Hfirst|split].
  - intros data H. eapply Fetch_range_Ok_inv; eassumption.
  - intros Hall. split.
    + split.
      * intros Hex. destruct (first_match meta sidecars Hall Hex)
          as (pre & x & post & Heq & Hpre & Hx).
        exists pre, x, post. repeat split; try assumption. eapply Hfirst; eassumption.
      * intros (pre & x & post & -> & _ & Hx & _). exists x. split; [|exact Hx].
        apply in_or_app. right. left. reflexivity.
    + rewrite (Fetch_range_missing_iff meta sidecars 0%nat w H32 Hall). split.
      * intros (x & Hin & Hx) Hd. rewrite Forall_forall in Hd.
        destruct (Hd x Hin) as (h & Hh & Hne). unfold matches in Hx. congruence.
      * intros Hn. destruct (matches_or_differs meta sidecars Hall) as [Hd|Hex];
          [contradiction|assumption].
Qed.

(** C5.  With [BlobUsed] set and a sidecar list in which every computed
    blob hash is another one than [BlobHash], [Fetch] fails with
    [errSidecarNotFound], and with no other error. *)
Theorem Fetch_sidecar_not_found (d : BlobFetcher) meta w sidecars :
  BlobUsed meta = true ->
  List.length (BlobHash meta) = 32%nat ->
  blobs_at (L1Beacon (rpc d)) w (uint64_add (L1Height meta) 1) = Ok sidecars ->
  Forall (differs meta) sidecars ->
  value_of (Fetch d meta w) = Some (Err errSidecarNotFound) /\
  (forall e, value_of (Fetch d meta w) = Some (Err e) -> e = errSidecarNotFound).
Proof.
  intros Hused H32 Hblobs Hd.
  assert (H : value_of (Fetch d meta w) = Some (Err errSidecarNotFound)).
  { rewrite (Fetch_used d meta w sidecars Hused Hblobs).
    rewrite <- (app_nil_r sidecars), Fetch_range_differs by assumption.
    apply Fetch_range_nil. }
  split; [exact H|]. intros e He. congruence.
Qed.

(** C7.  With [BlobUsed] unset [Fetch] fails with [errBlobUnused], which
    is another error than [errSidecarNotFound]. *)
Theorem Fetch_blob_unused (d : BlobFetcher) meta w :
  BlobUsed meta = false ->
  value_of (Fetch d meta w) = Some (Err errBlobUnused) /\
  errBlobUnused <> errSidecarNotFound.
Proof.
  intros Hunused. unfold Fetch. rewrite Hunused. split; [reflexivity|discriminate].
Qed.

(** C10.  With [BlobUsed] unset [Fetch] returns [errBlobUnused] without
    any call or log line before it: the world is left as it is and the
    beacon's [GetBlobs] is not called. *)
Theorem Fetch_blob_unused_no_read (d : BlobFetcher) meta w :
  BlobUsed meta = false ->
  Fetch d meta w = (Some (Err errBlobUnused), w, []) /\
  (forall slot, ~ In (EvGetBlobs slot) (events_of (Fetch d meta w))).
Proof.
  intros Hunused. unfold Fetch. rewrite Hunused. split; [reflexivity|].
  intros slot [].
Qed.

(** With [BlobUsed] set the first thing [Fetch] does is the call of
    [GetBlobs] for slot [L1Height + 1], and it is the only call. *)
Lemma Fetch_used_reads (d : BlobFetcher) meta w :
  BlobUsed meta = true ->
  exists logs,
    events_of (Fetch d meta w) = EvGetBlobs (uint64_add (L1Height meta) 1) :: logs /\
    forall e, In e logs -> is_network e = false.
Proof.
  intros Hused. unfold Fetch. rewrite Hused. cbn [negb].
  rewrite events_of_bind. unfold GetBlobs.
  rewrite value_of_bind, world_of_bind, events_of_bind. cbn.
  destruct (blobs_at (L1Beacon (rpc d)) w (uint64_add (L1Height meta) 1)) as [sidecars|err].
  - rewrite events_of_bind. cbn. eexists. split; [reflexivity|].
    intros e [<-|H]; [reflexivity|]. eapply Fetch_range_events. exact H.
  - cbn. eexists. split; [reflexivity|]. intros e [].
Qed.

(** An error of the beacon is returned as it is. *)
Lemma Fetch_beacon_error (d : BlobFetcher) meta w err :
  BlobUsed meta = true ->
  blobs_at (L1Beacon (rpc d)) w (uint64_add (L1Height meta) 1) = Err err ->
  value_of (Fetch d meta w) = Some (Err (external err)).
Proof.
  intros Hused Hblobs. unfold Fetch. rewrite Hused. cbn [negb].
  rewrite value_of_bind. unfold GetBlobs. rewrite value_of_bind, world_of_bind. cbn.
  rewrite Hblobs. reflexivity.
Qed.

End FetchClaims.

(** The claims on [Fetch] at work in the small world. *)

Lemma Fetch_first_match_witness :
  value_of (Fetch Demo.fetcher (Demo.meta 100 true (Demo.hashOf 2)) []) = Some (Ok [xbb; x02]).
Proof.
  destruct (Fetch_first_match Demo.fetcher (Demo.meta 100 true (Demo.hashOf 2)) []
              [Demo.sidecarA; Demo.sidecarB; Demo.sidecarB'; Demo.sidecarC])
    as [H _]; [reflexivity | vm_compute; reflexivity | reflexivity |].
  rewrite (H [Demo.sidecarA] Demo.sidecarB [Demo.sidecarB'; Demo.sidecarC]).
  - vm_compute. reflexivity.
  - reflexivity.
  - constructor; [|constructor]. exists (Demo.hashOf 1). split.
    + vm_compute. reflexivity.
    + apply bytes_eqb_neq. vm_compute. reflexivity.
  - vm_compute. reflexivity.
Defined.

Lemma Fetch_sidecar_not_found_witness :
  value_of (Fetch Demo.fetcher (Demo.meta 100 true (Demo.hashOf 5)) []) =
  Some (Err errSidecarNotFound).
Proof.
  apply (Fetch_sidecar_not_found Demo.fetcher (Demo.meta 100 true (Demo.hashOf 5)) []
           [Demo.sidecarA; Demo.sidecarB; Demo.sidecarB'; Demo.sidecarC]);
    [reflexivity | vm_compute; reflexivity | reflexivity |].
  repeat constructor.
  - exists (Demo.hashOf 1). split; [vm_compute; reflexivity|apply bytes_eqb_neq; vm_compute; reflexivity].
  - exists (Demo.hashOf 2). split; [vm_compute; reflexivity|apply bytes_eqb_neq; vm_compute; reflexivity].
  - exists (Demo.hashOf 2). split; [vm_compute; reflexivity|apply bytes_eqb_neq; vm_compute; reflexivity].
  - exists (Demo.hashOf 3). split; [vm_compute; reflexivity|apply bytes_eqb_neq; vm_compute; reflexivity].
Defined.

Lemma Fetch_blob_unused_witness :
  value_of (Fetch Demo.fetcher (Demo.meta 100 false (Demo.hashOf 2)) []) =
  Some (Err errBlobUnused).
Proof.
  apply (Fetch_blob_unused Demo.fetcher (Demo.meta 100 false (Demo.hashOf 2)) []).
  reflexivity.
Defined.

Lemma Fetch_blob_unused_no_read_witness :
  Fetch Demo.fetcher (Demo.meta 100 false (Demo.hashOf 2)) [] =
  (Some (Err errBlobUnused), [], []).
Proof.
  apply (Fetch_blob_unused_no_read Demo.fetcher (Demo.meta 100 false (Demo.hashOf 2)) []).
  reflexivity.
Defined.

(** In slot 101 the second and the third sidecar have the commitment whose
    hash is asked for: [Fetch] decodes the second, in list order the first
    of the two, and not the third. *)
Example Fetch_decodes_first_of_two :
  matches Demo.meta7 Demo.sidecarB /\ matches Demo.meta7 Demo.sidecarB' /\
  value_of (Fetch Demo.fetcher Demo.meta7 []) = decoded (ext := Demo.ext) Demo.sidecarB /\
  value_of (Fetch Demo.fetcher Demo.meta7 []) <> decoded (ext := Demo.ext) Demo.sidecarB'.
Proof.
  split; [|split; [|split]].
  - vm_compute. reflexivity.
  - vm_compute. reflexivity.
  - vm_compute. reflexivity.
  - vm_compute. discriminate.
Qed.

(** In slot 201 the second sidecar has a commitment of two bytes: a
    metadata that asks for the hash of the third sidecar makes [Fetch]
    panic. *)
Example Fetch_short_commitment_panics :
  value_of (Fetch Demo.fetcher (Demo.meta 200 true (Demo.hashOf 2)) []) = None.
Proof. vm_compute. reflexivity. Qed.

(** ** [ProofContester.SubmitContest] *)

Section ContestPaths.
Context {ext : Externals}.
Variables (c : ProofContester) (blockID proposedIn : Z) (parentHash : Hash)
          (meta : TaikoDataBlockMetadata) (tier : Z) (w : World).

Local Abbreviation run := (SubmitContest c blockID proposedIn parentHash meta tier w).

Lemma SubmitContest_read_swallowed err parsed :
  transition_at (TaikoL1 (pc_rpc c)) w (big_Uint64 blockID) parentHash = Err err ->
  TryParsingCustomError (Some err) = Some parsed ->
  Contains (Error parsed) "L1_" = false ->
  run = (Some None, w,
         [EvGetTransition (big_Uint64 blockID) parentHash;
          EvLog Warn "Failed to get transition"
            [("blockID", LInt blockID); ("parentHash", LBytes parentHash);
             ("error", LErr (Some parsed))]]).
Proof.
  intros Hread Hparse Hmsg. unfold SubmitContest, GetTransition, bind. cbn.
  rewrite Hread, Hparse, Hmsg. reflexivity.
Qed.

Lemma SubmitContest_read_returned err parsed :
  transition_at (TaikoL1 (pc_rpc c)) w (big_Uint64 blockID) parentHash = Err err ->
  TryParsingCustomError (Some err) = Some parsed ->
  Contains (Error parsed) "L1_" = true ->
  run = (Some (Some err), w, [EvGetTransition (big_Uint64 blockID) parentHash]).
Proof.
  intros Hread Hparse Hmsg. unfold SubmitContest, GetTransition, bind. cbn.
  rewrite Hread, Hparse, Hmsg. reflexivity.
Qed.

Lemma SubmitContest_read_panics err :
  transition_at (TaikoL1 (pc_rpc c)) w (big_Uint64 blockID) parentHash = Err err ->
  TryParsingCustomError (Some err) = None ->
  run = (None, w, [EvGetTransition (big_Uint64 blockID) parentHash]).
Proof.
  intros Hread Hparse. unfold SubmitContest, GetTransition, bind. cbn.
  rewrite Hread, Hparse. reflexivity.
Qed.

Lemma SubmitContest_contested transition :
  transition_at (TaikoL1 (pc_rpc c)) w (big_Uint64 blockID) parentHash = Ok transition ->
  Contester transition <> zero_Address ->
  run = (Some None, w,
         [EvGetTransition (big_Uint64 blockID) parentHash;
          EvLog Info "Transaction has already been contested"
            [("blockID", LInt blockID); ("parentHash", LBytes parentHash);
             ("contester", LBytes (Contester transition))]]).
Proof.
  intros Hread Hc. apply bytes_eqb_neq in Hc.
  unfold SubmitContest, GetTransition, bind. cbn.
  rewrite Hread, Hc. reflexivity.
Qed.

Lemma SubmitContest_l2_header_error transition err :
  transition_at (TaikoL1 (pc_rpc c)) w (big_Uint64 blockID) parentHash = Ok transition ->
  Contester transition = zero_Address ->
  header_at (L2 (pc_rpc c)) w blockID = Err err ->
  run = (Some (Some err), w,
         [EvGetTransition (big_Uint64 blockID) parentHash;
          EvHeaderByNumber (chain (L2 (pc_rpc c))) blockID]).
Proof.
  intros Hread Hc Hl2. apply bytes_eqb_eq in Hc.
  unfold SubmitContest, GetTransition, HeaderByNumber, bind. cbn.
  rewrite Hread, Hc. cbn. rewrite Hl2. reflexivity.
Qed.

Lemma SubmitContest_l1_header_error transition header err :
  transition_at (TaikoL1 (pc_rpc c)) w (big_Uint64 blockID) parentHash = Ok transition ->
  Contester transition = zero_Address ->
  header_at (L2 (pc_rpc c)) w blockID = Ok header ->
  header_at (L1 (pc_rpc c)) w proposedIn = Err err ->
  run = (Some (Some err), w,
         [EvGetTransition (big_Uint64 blockID) parentHash;
          EvHeaderByNumber (chain (L2 (pc_rpc c))) blockID;
          EvHeaderByNumber (chain (L1 (pc_rpc c))) proposedIn]).
Proof.
  intros Hread Hc Hl2 Hl1. apply bytes_eqb_eq in Hc.
  unfold SubmitContest, GetTransition, HeaderByNumber, bind. cbn.
  rewrite Hread, Hc. cbn. rewrite Hl2. cbn. rewrite Hl1. reflexivity.
Qed.

Lemma SubmitContest_sends transition header l1HeaderProposedIn :
  transition_at (TaikoL1 (pc_rpc c)) w (big_Uint64 blockID) parentHash = Ok transition ->
  Contester transition = zero_Address ->
  header_at (L2 (pc_rpc c)) w blockID = Ok header ->
  header_at (L1 (pc_rpc c)) w proposedIn = Ok l1HeaderProposedIn ->
  let p := contestProofWithHeader blockID meta tier header l1HeaderProposedIn in
  let tx := built (txBuilder c) blockID meta (contestTransition c header)
                  (contestTierProof transition) false in
  run = (Some (TryParsingCustomError (fst (sent (sender c) w p tx))),
         snd (sent (sender c) w p tx),
         [EvGetTransition (big_Uint64 blockID) parentHash;
          EvHeaderByNumber (chain (L2 (pc_rpc c))) blockID;
          EvHeaderByNumber (chain (L1 (pc_rpc c))) proposedIn;
          EvBuild blockID meta (contestTransition c header) (contestTierProof transition) false;
          EvSend p tx]).
Proof.
  intros Hread Hc Hl2 Hl1 p tx. apply bytes_eqb_eq in Hc.
  unfold SubmitContest, GetTransition, HeaderByNumber, Build, Send, bind. cbn.
  rewrite Hread, Hc. cbn. rewrite Hl2. cbn. rewrite Hl1. cbn.
  fold (contestTransition c header) (contestTierProof transition)
       (contestProofWithHeader blockID meta tier header l1HeaderProposedIn).
  fold p. fold tx. destruct (sent (sender c) w p tx) as [e w']. reflexivity.
Qed.

(** A run either leaves the world as it is and neither builds nor submits,
    or it has read an uncontested transition and the two headers and ends by
    building and submitting one transaction. *)
Lemma SubmitContest_cases :
  (world_of run = w /\ submissions (events_of run) = 0%nat /\ builds (events_of run) = 0%nat) \/
  (exists transition header l1HeaderProposedIn,
      transition_at (TaikoL1 (pc_rpc c)) w (big_Uint64 blockID) parentHash = Ok transition /\
      Contester transition = zero_Address /\
      header_at (L2 (pc_rpc c)) w blockID = Ok header /\
      header_at (L1 (pc_rpc c)) w proposedIn = Ok l1HeaderProposedIn /\
      let p := contestProofWithHeader blockID meta tier header l1HeaderProposedIn in
      let tx := built (txBuilder c) blockID meta (contestTransition c header)
                      (contestTierProof transition) false in
      run = (Some (TryParsingCustomError (fst (sent (sender c) w p tx))),
             snd (sent (sender c) w p tx),
             [EvGetTransition (big_Uint64 blockID) parentHash;
              EvHeaderByNumber (chain (L2 (pc_rpc c))) blockID;
              EvHeaderByNumber (chain (L1 (pc_rpc c))) proposedIn;
              EvBuild blockID meta (contestTransition c header)
                      (contestTierProof transition) false;
              EvSend p tx])).
Proof.
  destruct (transition_at (TaikoL1 (pc_rpc c)) w (big_Uint64 blockID) parentHash)
    as [transition|err] eqn:Hread.
  - destruct (bytes_eqb (Contester transition) zero_Address) eqn:Hc.
    + apply bytes_eqb_eq in Hc.
      destruct (header_at (L2 (pc_rpc c)) w blockID) as [header|err] eqn:Hl2.
      * destruct (header_at (L1 (pc_rpc c)) w proposedIn) as [l1h|err] eqn:Hl1.
        -- right. exists transition, header, l1h. do 4 (split; [first [assumption|reflexivity]|]).
           exact (SubmitContest_sends _ _ _ Hread Hc Hl2 Hl1).
        -- left. rewrite (SubmitContest_l1_header_error _ _ _ Hread Hc Hl2 Hl1).
           repeat split.
      * left. rewrite (SubmitContest_l2_header_error _ _ Hread Hc Hl2). repeat split.
    + apply bytes_eqb_neq in Hc. left.
      rewrite (SubmitContest_contested _ Hread Hc). repeat split.
  - destruct (TryParsingCustomError (Some err)) as [parsed|] eqn:Hparse.
    + destruct (Contains (Error parsed) "L1_") eqn:Hmsg; left.
      * rewrite (SubmitContest_read_returned _ _ Hread Hparse Hmsg). repeat split.
      * rewrite (SubmitContest_read_swallowed _ _ Hread Hparse Hmsg). repeat split.
    + left. rewrite (SubmitContest_read_panics _ Hread Hparse). repeat split.
Qed.

Lemma SubmitContest_submits_at_most_once : (submissions (events_of run) <= 1)%nat.
Proof.
  destruct SubmitContest_cases as [(_ & -> & _)|(t & h & l & _ & _ & _ & _ & ->)].
  - lia.
  - cbn. lia.
Qed.

End ContestPaths.

Lemma submissions_app {ext : Externals} (t1 t2 : list event) :
  submissions (t1 ++ t2) = (submissions t1 + submissions t2)%nat.
Proof. unfold submissions. rewrite filter_app, length_app. reflexivity. Qed.

Lemma submissions_0 {ext : Externals} (t : list event) :
  submissions t = 0%nat -> forall p tx, ~ In (EvSend p tx) t.
Proof.
  unfold submissions. intros H p tx Hin.
  assert (Hf : In (EvSend p tx) (filter is_send t)) by (apply filter_In; split; [assumption|reflexivity]).
  destruct (filter is_send t); [destruct Hf|discriminate H].
Qed.

Lemma builds_0 {ext : Externals} (t : list event) :
  builds t = 0%nat -> forall id m T TP flag, ~ In (EvBuild id m T TP flag) t.
Proof.
  unfold builds. intros H id m T TP flag Hin.
  assert (Hf : In (EvBuild id m T TP flag) (filter is_build t))
    by (apply filter_In; split; [assumption|reflexivity]).
  destruct (filter is_build t); [destruct Hf|discriminate H].
Qed.


Section ContestClaims.
Context {ext : Externals}.
Variables (c : ProofContester) (blockID proposedIn : Z) (parentHash : Hash)
          (meta : TaikoDataBlockMetadata) (tier : Z).

(** C2.  When the transition on chain for [(blockID, parentHash)] has a
    contester other than the zero address, [SubmitContest] returns [nil],
    leaves the world as it is and neither builds nor submits a transaction.
    Hence, when a first call leaves such a world, the first call and a second
    one submit at most one transaction between them, and exactly one if the
    first call submitted one. *)
Theorem SubmitContest_idempotent (w : World) (transition : TransitionState) :
  transition_at (TaikoL1 (pc_rpc c)) w (big_Uint64 blockID) parentHash = Ok transition ->
  Contester transition <> zero_Address ->
  let second := SubmitContest c blockID proposedIn parentHash meta tier w in
  value_of second = Some None /\
  world_of second = w /\
  builds (events_of second) = 0%nat /\
  submissions (events_of second) = 0%nat /\
  (forall w0,
      let first := SubmitContest c blockID proposedIn parentHash meta tier w0 in
      world_of first = w ->
      (submissions (events_of first ++ events_of second) <= 1)%nat /\
      (submissions (events_of first) = 1%nat ->
       submissions (events_of first ++ events_of second) = 1%nat)).
Proof.
  intros Hread Hc second. unfold second.
  rewrite (SubmitContest_contested c blockID proposedIn parentHash meta tier w _ Hread Hc).
  do 4 (split; [reflexivity|]).
  intros w0 _. rewrite submissions_app.
  change (submissions (events_of (Some (@None error), w, _))) with 0%nat.
  pose proof (SubmitContest_submits_at_most_once c blockID proposedIn parentHash meta tier w0)
    as Hle.
  lia.
Qed.

(** C3.  Whenever [SubmitContest] hands a transaction to the sender, that
    transaction is the one built, in the same call, from the tier of the
    transition read from the chain, from the hash, the parent hash and the
    state root of the L2 header read in the call, from the graffiti of the
    contester and from empty proof bytes.  The [tier] argument has no part
    in it: the call builds the same with any other [tier]. *)
Theorem SubmitContest_contest_transaction (w : World) (p : ProofWithHeader) (tx : TxBuilder) :
  let run := SubmitContest c blockID proposedIn parentHash meta tier w in
  In (EvSend p tx) (events_of run) ->
  (exists transition header transitionArg tierProof flag,
      transition_at (TaikoL1 (pc_rpc c)) w (big_Uint64 blockID) parentHash = Ok transition /\
      header_at (L2 (pc_rpc c)) w blockID = Ok header /\
      In (EvBuild blockID meta transitionArg tierProof flag) (events_of run) /\
      tx = built (txBuilder c) blockID meta transitionArg tierProof flag /\
      tp_Tier tierProof = ts_Tier transition /\
      Data tierProof = [] /\
      tr_BlockHash transitionArg = Header_Hash header /\
      tr_ParentHash transitionArg = ParentHash header /\
      tr_StateRoot transitionArg = Root header /\
      Graffiti transitionArg = graffiti c) /\
  (forall tier',
      filter is_build (events_of (SubmitContest c blockID proposedIn parentHash meta tier' w)) =
      filter is_build (events_of run)).
Proof.
  intros run Hin. unfold run in *.
  destruct (SubmitContest_cases c blockID proposedIn parentHash meta tier w)
    as [(_ & H0 & _)|(t & h & l & Hread & Hc & Hl2 & Hl1 & Hrun)].
  - exfalso. exact (submissions_0 _ H0 _ _ Hin).
  - cbv zeta in Hrun. split.
    + rewrite Hrun in *. cbn [events_of snd] in *.
      destruct Hin as [Hin|[Hin|[Hin|[Hin|[Hin|[]]]]]]; try discriminate Hin.
      injection Hin as <- <-.
      exists t, h, (contestTransition c h), (contestTierProof t), false.
      repeat split; try assumption.
      right; right; right; left. reflexivity.
    + intros tier'. rewrite Hrun.
      rewrite (SubmitContest_sends c blockID proposedIn parentHash meta tier' w _ _ _
                 Hread Hc Hl2 Hl1).
      reflexivity.
Qed.

(** C4.  When the first read of the transition fails and the error parses
    to a message: without ["L1_"] in the message, [SubmitContest] writes a
    warning and returns [nil]; with ["L1_"] in it, [SubmitContest] returns
    the error of the read.  Neither way is anything built or submitted. *)
Theorem SubmitContest_read_error (w : World) (err parsed : error) :
  transition_at (TaikoL1 (pc_rpc c)) w (big_Uint64 blockID) parentHash = Err err ->
  TryParsingCustomError (Some err) = Some parsed ->
  let run := SubmitContest c blockID proposedIn parentHash meta tier w in
  (Contains (Error parsed) "L1_" = false ->
   value_of run = Some None /\
   (exists ctx, In (EvLog Warn "Failed to get transition" ctx) (events_of run)) /\
   world_of run = w /\ builds (events_of run) = 0%nat /\
   submissions (events_of run) = 0%nat) /\
  (Contains (Error parsed) "L1_" = true ->
   value_of run = Some (Some err) /\
   world_of run = w /\ builds (events_of run) = 0%nat /\
   submissions (events_of run) = 0%nat).
Proof.
  intros Hread Hparse run. unfold run. split; intros Hmsg.
  - rewrite (SubmitContest_read_swallowed c blockID proposedIn parentHash meta tier w _ _
               Hread Hparse Hmsg).
    repeat split. eexists. right; left. reflexivity.
  - rewrite (SubmitContest_read_returned c blockID proposedIn parentHash meta tier w _ _
               Hread Hparse Hmsg).
    repeat split.
Qed.

(** C6, as the code has it.  Whenever [SubmitContest] calls [Build], the
    boolean it passes as last argument is [false]. *)
Theorem SubmitContest_build_flag (w : World) blockID' meta' transitionArg tierProof flag :
  In (EvBuild blockID' meta' transitionArg tierProof flag)
     (events_of (SubmitContest c blockID proposedIn parentHash meta tier w)) ->
  flag = false.
Proof.
  intros Hin.
  destruct (SubmitContest_cases c blockID proposedIn parentHash meta tier w)
    as [(_ & _ & H0)|(t & h & l & _ & _ & _ & _ & Hrun)].
  - exfalso. exact (builds_0 _ H0 _ _ _ _ _ Hin).
  - cbv zeta in Hrun. rewrite Hrun in Hin. cbn [events_of snd] in Hin.
    destruct Hin as [Hin|[Hin|[Hin|[Hin|[Hin|[]]]]]]; try discriminate Hin.
    injection Hin as _ _ _ _ <-. reflexivity.
Qed.

End ContestClaims.

(** The claims on [SubmitContest] at work in the small world: block 7 with
    parent [h32 6] is uncontested in the empty world and contested in
    [Demo.contestedWorld]. *)

Lemma SubmitContest_idempotent_witness :
  let first := SubmitContest Demo.contester 7 50 (Demo.h32 6) Demo.meta7 100 [] in
  let second := SubmitContest Demo.contester 7 50 (Demo.h32 6) Demo.meta7 100 (world_of first) in
  submissions (events_of first) = 1%nat /\
  value_of second = Some None /\
  submissions (events_of first ++ events_of second) = 1%nat.
Proof.
  intros first second.
  assert (Hw : world_of first = Demo.contestedWorld) by (vm_compute; reflexivity).
  assert (H1 : submissions (events_of first) = 1%nat) by (vm_compute; reflexivity).
  unfold second. rewrite Hw.
  destruct (SubmitContest_idempotent Demo.contester 7 50 (Demo.h32 6) Demo.meta7 100
              Demo.contestedWorld (Demo.onChain Demo.prover))
    as (Hv & _ & _ & _ & Htwice).
  - vm_compute. reflexivity.
  - apply bytes_eqb_neq. vm_compute. reflexivity.
  - split; [exact H1|]. split; [exact Hv|].
    apply (Htwice []); [exact Hw|exact H1].
Defined.

Lemma SubmitContest_contest_transaction_witness :
  filter is_build (events_of (SubmitContest Demo.contester 7 50 (Demo.h32 6) Demo.meta7 300 [])) =
  filter is_build (events_of (SubmitContest Demo.contester 7 50 (Demo.h32 6) Demo.meta7 100 [])).
Proof.
  generalize 300. refine (proj2 (SubmitContest_contest_transaction
                   Demo.contester 7 50 (Demo.h32 6) Demo.meta7 100 []
                   (contestProofWithHeader 7 Demo.meta7 100 (Demo.header 7) (Demo.header 50))
                   (7, Demo.meta7, contestTransition Demo.contester (Demo.header 7),
                    contestTierProof (Demo.onChain zero_Address), false) _)).
  rewrite (SubmitContest_sends Demo.contester 7 50 (Demo.h32 6) Demo.meta7 100 []
             (Demo.onChain zero_Address) (Demo.header 7) (Demo.header 50));
    [|vm_compute; reflexivity|reflexivity|reflexivity|reflexivity].
  do 4 right. left. reflexivity.
Defined.

Lemma SubmitContest_read_error_witness :
  value_of (SubmitContest Demo.contester 8 50 (Demo.h32 6) Demo.meta7 100 []) =
  Some (Some (errors_New "L1_TRANSITION_NOT_FOUND")) /\
  value_of (SubmitContest Demo.contester 9 50 (Demo.h32 6) Demo.meta7 100 []) = Some None.
Proof.
  split.
  - apply (SubmitContest_read_error Demo.contester 8 50 (Demo.h32 6) Demo.meta7 100 []
             (errors_New "L1_TRANSITION_NOT_FOUND") (errors_New "L1_TRANSITION_NOT_FOUND"));
      reflexivity.
  - apply (SubmitContest_read_error Demo.contester 9 50 (Demo.h32 6) Demo.meta7 100 []
             (errors_New "connection refused") (errors_New "connection refused"));
      reflexivity.
Defined.

Lemma SubmitContest_build_flag_witness :
  In (EvBuild 7 Demo.meta7 (contestTransition Demo.contester (Demo.header 7))
        (contestTierProof (Demo.onChain zero_Address)) false)
     (events_of (SubmitContest Demo.contester 7 50 (Demo.h32 6) Demo.meta7 100 [])) /\
  false = false.
Proof.
  assert (Hin : In (EvBuild 7 Demo.meta7 (contestTransition Demo.contester (Demo.header 7))
                      (contestTierProof (Demo.onChain zero_Address)) false)
                   (events_of (SubmitContest Demo.contester 7 50 (Demo.h32 6) Demo.meta7 100 []))).
  { rewrite (SubmitContest_sends Demo.contester 7 50 (Demo.h32 6) Demo.meta7 100 []
               (Demo.onChain zero_Address) (Demo.header 7) (Demo.header 50));
      [|vm_compute; reflexivity|reflexivity|reflexivity|reflexivity].
    do 3 right. left. reflexivity. }
  split; [exact Hin|].
  exact (SubmitContest_build_flag Demo.contester 7 50 (Demo.h32 6) Demo.meta7 100 [] _ _ _ _ _ Hin).
Defined.

(** C6, as the claim has it, fails: in the empty world, the call that
    contests block 7 calls [Build] with [false]. *)
Lemma SubmitContest_build_flag_counterexample :
  ~ (forall blockID' meta' transitionArg tierProof flag,
        In (EvBuild blockID' meta' transitionArg tierProof flag)
           (events_of (SubmitContest Demo.contester 7 50 (Demo.h32 6) Demo.meta7 100 [])) ->
        flag = true).
Proof.
  intros H.
  assert (E : false = true); [|discriminate E].
  apply (H 7 Demo.meta7 (contestTransition Demo.contester (Demo.header 7))
           (contestTierProof (Demo.onChain zero_Address))).
  rewrite (SubmitContest_sends Demo.contester 7 50 (Demo.h32 6) Demo.meta7 100 []
             (Demo.onChain zero_Address) (Demo.header 7) (Demo.header 50));
    [|vm_compute; reflexivity|reflexivity|reflexivity|reflexivity].
  do 3 right. left. reflexivity.
Qed.
(** ** [ProofSubmitter] *)

Section SubmitterClaims.
Context {ext : Externals}.
Variable s : ProofSubmitter.

(** C8.  When no metadata stored on chain for the block id of the proof is
    the metadata of the proof, [SubmitProof] returns an error, leaves the
    world as it is and neither builds nor submits a transaction. *)
Theorem SubmitProof_metadata_not_found (p : ProofWithHeader) (w : World) :
  (forall stored, block_at (ps_blocks s) w (BlockID p) = Ok stored -> stored <> Meta p) ->
  let run := SubmitProof s p w in
  (exists err, value_of run = Some (Some err)) /\
  world_of run = w /\
  builds (events_of run) = 0%nat /\
  submissions (events_of run) = 0%nat.
Proof.
  intros Hstored run. unfold run, SubmitProof, GetBlock, bind. cbn.
  destruct (block_at (ps_blocks s) w (BlockID p)) as [stored|err] eqn:Hread.
  - assert (E : meta_eqb stored (Meta p) = false).
    { destruct (meta_eqb stored (Meta p)) eqn:E; [|reflexivity].
      apply meta_eqb_eq in E. destruct (Hstored stored eq_refl E). }
    rewrite E. cbn. repeat split. eexists. reflexivity.
  - cbn. repeat split. eexists. reflexivity.
Qed.

(** The wait ends with the error of the context when the context is done
    at a look before which neither it nor the producer had anything to
    say. *)
Lemma await_context_done (ctx : Context) (job : nat -> option (result error bytes)) (e : error) :
  forall n looks k,
    (forall j, (j < n)%nat -> Err_at ctx (k + j) = None /\ job (k + j)%nat = None) ->
    Err_at ctx (k + n) = Some e ->
    (n < looks)%nat ->
    await looks k ctx job = Some (Err e).
Proof.
  induction n as [|n IH]; intros looks k Hquiet Hdone Hlooks;
    (destruct looks as [|looks]; [lia|]); cbn [await].
  - rewrite Nat.add_0_r in Hdone. rewrite Hdone. reflexivity.
  - destruct (Hquiet 0%nat ltac:(lia)) as [Hc Hj]. rewrite Nat.add_0_r in Hc, Hj.
    rewrite Hc, Hj. apply IH.
    + intros j Hlt. replace (S k + j)%nat with (k + S j)%nat by lia. apply Hquiet. lia.
    + replace (S k + n)%nat with (k + S n)%nat by lia. exact Hdone.
    + lia.
Qed.

(** C9.  A context whose deadline has elapsed before the call makes
    [RequestProof] return [context.DeadlineExceeded], before anything else
    happens; a context that is cancelled while the call waits for the
    producer makes it return [context.Canceled], and no proof is delivered.
    The messages of the two errors say so, and the two errors differ. *)
Theorem RequestProof_context_errors (event : BlockProposed) (w : World) :
  (forall ctx looks,
      Err_at ctx 0 = Some context_DeadlineExceeded ->
      RequestProof s ctx event looks w =
      (Some (Returned (Some context_DeadlineExceeded)), w, [])) /\
  (forall ctx looks n header,
      header_at (L2 (ps_rpc s)) w (ev_BlockId event) = Ok header ->
      (forall j, (j < n)%nat ->
         Err_at ctx j = None /\
         completes (proofProducer s) w
           {| EventL1Hash := ev_L1Hash event; StateRoot := Root header |} j = None) ->
      Err_at ctx n = Some context_Canceled ->
      (n < looks)%nat ->
      let run := RequestProof s ctx event looks w in
      value_of run = Some (Returned (Some context_Canceled)) /\
      forall p, ~ In (EvDeliver p) (events_of run)) /\
  Contains (Error context_DeadlineExceeded) "deadline exceeded" = true /\
  Contains (Error context_Canceled) "context canceled" = true /\
  context_Canceled <> context_DeadlineExceeded.
Proof.
  split; [|split; [|split; [|split]]].
  - intros ctx looks Hdone. unfold RequestProof. rewrite Hdone. reflexivity.
  - intros ctx looks n header Hl2 Hquiet Hdone Hlooks run. unfold run, RequestProof.
    destruct n as [|n].
    + rewrite Hdone. split; [reflexivity|]. intros p [].
    + destruct (Hquiet 0%nat ltac:(lia)) as [Hc0 _]. rewrite Hc0.
      unfold HeaderByNumber, bind. cbn. rewrite Hl2. cbn.
      rewrite (await_context_done ctx _ context_Canceled (S n) looks 0%nat);
        [|exact Hquiet|exact Hdone|exact Hlooks].
      cbn. split; [reflexivity|].
      intros p [H|[H|[]]]; discriminate H.
  - vm_compute. reflexivity.
  - vm_compute. reflexivity.
  - discriminate.
Qed.

End SubmitterClaims.

(** The claims on the submitter at work in the small world. *)

Lemma SubmitProof_metadata_not_found_witness :
  value_of (SubmitProof Demo.submitter Demo.strayProof []) = Some (Some errMetadataNotFound) /\
  submissions (events_of (SubmitProof Demo.submitter Demo.strayProof [])) = 0%nat.
Proof.
  destruct (SubmitProof_metadata_not_found Demo.submitter Demo.strayProof [])
    as (_ & _ & _ & H0).
  - intros stored Hstored. vm_compute in Hstored. injection Hstored as <-.
    intros E. apply (f_equal L1Height) in E. vm_compute in E. discriminate E.
  - split; [vm_compute; reflexivity|exact H0].
Defined.

Lemma RequestProof_context_errors_witness :
  RequestProof Demo.submitter Demo.ctxExpired Demo.proposed7 10 [] =
  (Some (Returned (Some context_DeadlineExceeded)), [], []) /\
  value_of (RequestProof Demo.submitter Demo.ctxCancelled Demo.proposed7 10 []) =
  Some (Returned (Some context_Canceled)).
Proof.
  destruct (RequestProof_context_errors Demo.submitter Demo.proposed7 [])
    as (Hdeadline & Hcancel & _).
  split.
  - apply Hdeadline. reflexivity.
  - apply (Hcancel Demo.ctxCancelled 10%nat 2%nat (Demo.header 7)).
    + reflexivity.
    + intros j Hj. destruct j as [|[|j]]; [split; reflexivity|split; reflexivity|lia].
    + reflexivity.
    + lia.
Defined.

(* ===================================================================== *)
(** * Further properties *)
(* ===================================================================== *)

(** ** Hexadecimal strings and blob hashes *)

Lemma Bytes2Hex_cons (x : byte) (b : bytes) :
  Bytes2Hex (x :: b) =
  String (hexDigit (Z.shiftr (Z_of_byte x) 4))
         (String (hexDigit (Z.land (Z_of_byte x) 15)) (Bytes2Hex b)).
Proof. reflexivity. Qed.

Lemma Hex2Bytes_digits (x : byte) (s : string) :
  Hex2Bytes (String (hexDigit (Z.shiftr (Z_of_byte x) 4))
                    (String (hexDigit (Z.land (Z_of_byte x) 15)) s)) =
  x :: Hex2Bytes s.
Proof. destruct x; reflexivity. Qed.

Lemma Hex2Bytes_Bytes2Hex (b : bytes) : Hex2Bytes (Bytes2Hex b) = b.
Proof.
  induction b as [|x b IH]; [reflexivity|].
  rewrite Bytes2Hex_cons, Hex2Bytes_digits, IH. reflexivity.
Qed.

Lemma Bytes2Hex_no_prefix (b : bytes) : has0xPrefix (Bytes2Hex b) = false.
Proof.
  destruct b as [|x b]; [reflexivity|]. rewrite Bytes2Hex_cons. destruct x; reflexivity.
Qed.

Lemma Bytes2Hex_even (b : bytes) : Nat.odd (String.length (Bytes2Hex b)) = false.
Proof.
  induction b as [|x b IH]; [reflexivity|]. rewrite Bytes2Hex_cons. exact IH.
Qed.

Lemma substring_all (s : string) : String.substring 0 (String.length s) s = s.
Proof. induction s as [|c s IH]; [reflexivity|]. cbn. rewrite IH. reflexivity. Qed.

(** [common.FromHex] undoes [common.Bytes2Hex], with and without the
    prefix. *)
Lemma FromHex_Bytes2Hex (b : bytes) : FromHex (Bytes2Hex b) = b.
Proof.
  unfold FromHex. rewrite Bytes2Hex_no_prefix, Bytes2Hex_even. apply Hex2Bytes_Bytes2Hex.
Qed.

Lemma FromHex_0x_Bytes2Hex (b : bytes) : FromHex ("0x" ++ Bytes2Hex b)%string = b.
Proof.
  unfold FromHex.
  change ("0x" ++ Bytes2Hex b)%string with (String "0" (String "x" (Bytes2Hex b))).
  change (has0xPrefix (String "0" (String "x" (Bytes2Hex b)))) with true. cbv iota.
  replace (String.length (String "0" (String "x" (Bytes2Hex b))) - 2)%nat
    with (String.length (Bytes2Hex b)) by (cbn [String.length]; lia).
  change (String.substring 2 (String.length (Bytes2Hex b))
            (String "0" (String "x" (Bytes2Hex b))))
    with (String.substring 0 (String.length (Bytes2Hex b)) (Bytes2Hex b)).
  rewrite substring_all, Bytes2Hex_even. apply Hex2Bytes_Bytes2Hex.
Qed.

Lemma be_bytes_length (n : nat) (x : Z) : List.length (sha256.be_bytes n x) = n.
Proof. induction n as [|n IH]; [reflexivity|]. cbn [sha256.be_bytes List.length]. now rewrite IH. Qed.

Lemma block_length (h : list Z) (b : bytes) :
  List.length h = 8%nat -> List.length (sha256.block h b) = 8%nat.
Proof.
  intros H. unfold sha256.block. rewrite length_map, length_combine, H.
  destruct (fold_left _ _ _) as [[[[[[[a0 a1] a2] a3] a4] a5] a6] a7]. reflexivity.
Qed.

Lemma blocks_length (n : nat) : forall h b,
  List.length h = 8%nat -> List.length (sha256.blocks n h b) = 8%nat.
Proof.
  induction n as [|n IH]; intros h b H; [exact H|].
  cbn [sha256.blocks]. apply IH. apply block_length. exact H.
Qed.

Lemma words_to_bytes_length (l : list Z) :
  List.length (flat_map (sha256.be_bytes 4) l) = (4 * List.length l)%nat.
Proof.
  induction l as [|x l IH]; [reflexivity|].
  cbn [flat_map]. rewrite length_app, be_bytes_length, IH. cbn [List.length]. lia.
Qed.

(** A SHA-256 digest has 32 bytes. *)
Lemma Sum256_length (msg : bytes) : List.length (sha256.Sum256 msg) = 32%nat.
Proof.
  unfold sha256.Sum256. rewrite words_to_bytes_length, blocks_length; reflexivity.
Qed.

(** A blob hash has 32 bytes, the first of which is the version [0x01]. *)
Lemma CalcBlobHashV1_shape (commit : bytes) :
  exists t, CalcBlobHashV1 commit = x01 :: t /\ List.length t = 31%nat.
Proof.
  unfold CalcBlobHashV1. pose proof (Sum256_length commit) as H.
  destruct (sha256.Sum256 commit) as [|x t]; [discriminate H|].
  exists t. split; [reflexivity|]. cbn in H. lia.
Qed.

Lemma filter_none {A} (f : A -> bool) (l : list A) :
  (forall x, In x l -> f x = false) -> filter f l = [].
Proof.
  induction l as [|x l IH]; intros H; [reflexivity|].
  cbn [filter]. rewrite (H x (or_introl eq_refl)). apply IH.
  intros y Hy. apply H. right. exact Hy.
Qed.

(** ** More on [BlobFetcher.Fetch] *)

Section FetchFurther.
Context {ext : Externals}.

Lemma Fetch_range_cons_events meta i sidecar rest w :
  events_of (Fetch_range meta i (sidecar :: rest) w) =
  blockSidecarLog meta i sidecar ::
  match sidecarBlobHash sidecar with
  | None => []
  | Some h =>
      if bytes_eqb h (BytesToHash (BlobHash meta)) then []
      else events_of (Fetch_range meta (S i) rest w)
  end.
Proof.
  cbn [Fetch_range]. rewrite events_of_bind. cbn.
  unfold sidecarBlobHash, blockSidecarLog.
  destruct (kzg4844_Commitment (FromHex (KzgCommitment sidecar))) as [c|]; cbn; [|reflexivity].
  destruct (bytes_eqb (CalcBlobHashV1 c) (BytesToHash (BlobHash meta))); [|reflexivity].
  destruct (Blob_ToData (FromHex (Blob sidecar))) as [[data|err]|]; reflexivity.
Qed.

Lemma blockSidecarLogs_app meta pre rest : forall i,
  blockSidecarLogs meta i (pre ++ rest) =
  blockSidecarLogs meta i pre ++ blockSidecarLogs meta (i + List.length pre) rest.
Proof.
  induction pre as [|s pre IH]; intros i.
  - rewrite Nat.add_0_r. reflexivity.
  - cbn [app blockSidecarLogs List.length]. rewrite IH.
    replace (i + S (List.length pre))%nat with (S i + List.length pre)%nat by lia.
    reflexivity.
Qed.

Lemma Fetch_range_events_differs meta pre rest : forall i w,
  List.length (BlobHash meta) = 32%nat ->
  Forall (differs meta) pre ->
  events_of (Fetch_range meta i (pre ++ rest) w) =
  blockSidecarLogs meta i pre ++ events_of (Fetch_range meta (i + List.length pre) rest w).
Proof.
  induction pre as [|s pre IH]; intros i w H32 Hpre.
  - rewrite Nat.add_0_r. reflexivity.
  - inversion Hpre as [|? ? [h [Hh Hne]] Hpre']; subst.
    cbn [app]. rewrite Fetch_range_cons_events, Hh, BytesToHash_32 by assumption.
    apply bytes_eqb_neq in Hne. rewrite Hne.
    rewrite IH by assumption. cbn [blockSidecarLogs app List.length].
    replace (i + S (List.length pre))%nat with (S i + List.length pre)%nat by lia.
    reflexivity.
Qed.

Lemma Fetch_used_events (d : BlobFetcher) meta w sidecars :
  BlobUsed meta = true ->
  blobs_at (L1Beacon (rpc d)) w (uint64_add (L1Height meta) 1) = Ok sidecars ->
  events_of (Fetch d meta w) =
  EvGetBlobs (uint64_add (L1Height meta) 1) :: fetchSidecarsLog meta sidecars ::
  events_of (Fetch_range meta 0 sidecars w).
Proof.
  intros Hused Hblobs. unfold Fetch. rewrite Hused. cbn [negb].
  rewrite events_of_bind. unfold GetBlobs.
  rewrite value_of_bind, world_of_bind, events_of_bind. cbn.
  rewrite Hblobs. rewrite events_of_bind. reflexivity.
Qed.

(** X1.  When the beacon's [GetBlobs] fails, [Fetch] returns the beacon's
    error; the call is the only thing that has happened: no log line is
    written and the world is as it was. *)
Theorem Fetch_beacon_failure (d : BlobFetcher) meta w err :
  BlobUsed meta = true ->
  blobs_at (L1Beacon (rpc d)) w (uint64_add (L1Height meta) 1) = Err err ->
  Fetch d meta w =
  (Some (Err (external err)), w, [EvGetBlobs (uint64_add (L1Height meta) 1)]).
Proof.
  intros Hused Hblobs. unfold Fetch, GetBlobs, bind. rewrite Hused. cbn.
  rewrite Hblobs. reflexivity.
Qed.

(** X2.  With [BlobUsed] set, whatever the beacon answers and however the
    run ends, [Fetch] makes one call to a collaborator and no more: the
    [GetBlobs] for the slot; everything else it causes is log lines. *)
Theorem Fetch_one_network_call (d : BlobFetcher) meta w :
  BlobUsed meta = true ->
  filter is_network (events_of (Fetch d meta w)) =
  [EvGetBlobs (uint64_add (L1Height meta) 1)].
Proof.
  intros Hused. destruct (Fetch_used_reads d meta w Hused) as (logs & -> & Hlogs).
  cbn [filter is_network]. f_equal. apply filter_none. exact Hlogs.
Qed.

(** X3.  The slot is computed on 64 bits: for an [L1Height] within
    [uint64], the slot asked for is [L1Height + 1], except at the largest
    height, where it wraps around to slot 0. *)
Theorem Fetch_slot_wraps (d : BlobFetcher) meta w :
  BlobUsed meta = true ->
  0 <= L1Height meta < 2 ^ 64 ->
  exists logs,
    events_of (Fetch d meta w) =
    EvGetBlobs (if L1Height meta =? 2 ^ 64 - 1 then 0 else L1Height meta + 1) :: logs.
Proof.
  intros Hused Hrange. destruct (Fetch_used_reads d meta w Hused) as (logs & -> & _).
  exists logs. f_equal. f_equal. unfold uint64_add.
  destruct (Z.eqb_spec (L1Height meta) (2 ^ 64 - 1)) as [->|Hne].
  - reflexivity.
  - apply Z.mod_small. lia.
Qed.

(** X4.  A sidecar whose commitment decodes to fewer than 48 bytes makes
    [Fetch] panic when the loop reaches it, that is when no sidecar before it
    has the hash asked for; sidecars after it play no part. *)
Theorem Fetch_short_commitment_panic (d : BlobFetcher) meta w pre sidecar post :
  BlobUsed meta = true ->
  List.length (BlobHash meta) = 32%nat ->
  blobs_at (L1Beacon (rpc d)) w (uint64_add (L1Height meta) 1) = Ok (pre ++ sidecar :: post) ->
  Forall (differs meta) pre ->
  (List.length (FromHex (KzgCommitment sidecar)) < 48)%nat ->
  value_of (Fetch d meta w) = None.
Proof.
  intros Hused H32 Hblobs Hpre Hshort.
  rewrite (Fetch_used d meta w _ Hused Hblobs).
  apply Fetch_range_short_commitment; assumption.
Qed.

(** X5.  A sidecar whose [KzgCommitment] is the hexadecimal text of a
    48-byte commitment, with or without the [0x] prefix, gets the blob hash
    of that commitment, and so has the hash the metadata asks for exactly
    when that blob hash is [BlobHash]. *)
Theorem sidecarBlobHash_of_hex meta (sidecar : BeaconSidecar) (commitment : bytes) :
  List.length commitment = 48%nat ->
  KzgCommitment sidecar = Bytes2Hex commitment \/
  KzgCommitment sidecar = ("0x" ++ Bytes2Hex commitment)%string ->
  sidecarBlobHash sidecar = Some (CalcBlobHashV1 commitment) /\
  (matches meta sidecar <-> CalcBlobHashV1 commitment = BlobHash meta).
Proof.
  intros H48 Hhex.
  assert (Hb : FromHex (KzgCommitment sidecar) = commitment).
  { destruct Hhex as [->| ->]; [apply FromHex_Bytes2Hex|apply FromHex_0x_Bytes2Hex]. }
  assert (Hh : sidecarBlobHash sidecar = Some (CalcBlobHashV1 commitment)).
  { unfold sidecarBlobHash, kzg4844_Commitment. rewrite Hb, H48.
    change (48 <? 48)%nat with false. cbn [option_map].
    rewrite firstn_all2 by lia. reflexivity. }
  split; [exact Hh|]. unfold matches. rewrite Hh. split; congruence.
Qed.

(** X6.  Only the first 48 bytes of a decoded commitment count: whatever
    follows them is dropped by the conversion, and the blob hash is that of
    the first 48 bytes. *)
Theorem sidecarBlobHash_truncates (sidecar : BeaconSidecar) (commitment extra : bytes) :
  List.length commitment = 48%nat ->
  FromHex (KzgCommitment sidecar) = commitment ++ extra ->
  sidecarBlobHash sidecar = Some (CalcBlobHashV1 commitment).
Proof.
  intros H48 Hb. unfold sidecarBlobHash, kzg4844_Commitment. rewrite Hb.
  assert (Hlen : (List.length (commitment ++ extra) <? 48)%nat = false).
  { apply Nat.ltb_ge. rewrite length_app. lia. }
  rewrite Hlen. cbn [option_map]. rewrite firstn_app, H48, Nat.sub_diag.
  rewrite firstn_all2 by lia. cbn [firstn]. rewrite app_nil_r. reflexivity.
Qed.

(** X7.  Every computed blob hash begins with the version byte [0x01].  A
    metadata whose [BlobHash] begins otherwise can have no sidecar: when all
    commitments decode to at least 48 bytes, [Fetch] ends with
    [errSidecarNotFound]. *)
Theorem Fetch_wrong_version_byte (d : BlobFetcher) meta w sidecars :
  BlobUsed meta = true ->
  List.length (BlobHash meta) = 32%nat ->
  blobs_at (L1Beacon (rpc d)) w (uint64_add (L1Height meta) 1) = Ok sidecars ->
  Forall (fun s => (48 <= List.length (FromHex (KzgCommitment s)))%nat) sidecars ->
  hd x00 (BlobHash meta) <> x01 ->
  value_of (Fetch d meta w) = Some (Err errSidecarNotFound).
Proof.
  intros Hused H32 Hblobs Hlong Hversion.
  assert (Hd : Forall (differs meta) sidecars).
  { eapply Forall_impl; [|exact Hlong]. intros s Hs.
    unfold differs, sidecarBlobHash, kzg4844_Commitment.
    apply Nat.ltb_ge in Hs. rewrite Hs. cbn [option_map].
    eexists. split; [reflexivity|]. intros E.
    destruct (CalcBlobHashV1_shape (firstn 48 (FromHex (KzgCommitment s)))) as (t & Ht & _).
    rewrite Ht in E. rewrite <- E in Hversion. apply Hversion. reflexivity. }
  rewrite (Fetch_used d meta w sidecars Hused Hblobs).
  rewrite <- (app_nil_r sidecars), Fetch_range_differs by assumption.
  apply Fetch_range_nil.
Qed.

(** X8.  The loop stops at the first sidecar that has the hash asked for:
    after the [GetBlobs] call and the line that counts the sidecars, [Fetch]
    writes one line for each sidecar up to and including that one, in list
    order with its index, and none for the sidecars that follow. *)
Theorem Fetch_stops_at_first_match (d : BlobFetcher) meta w pre sidecar post :
  BlobUsed meta = true ->
  List.length (BlobHash meta) = 32%nat ->
  blobs_at (L1Beacon (rpc d)) w (uint64_add (L1Height meta) 1) = Ok (pre ++ sidecar :: post) ->
  Forall (differs meta) pre ->
  matches meta sidecar ->
  events_of (Fetch d meta w) =
  EvGetBlobs (uint64_add (L1Height meta) 1) ::
  fetchSidecarsLog meta (pre ++ sidecar :: post) ::
  blockSidecarLogs meta 0 (pre ++ [sidecar]).
Proof.
  intros Hused H32 Hblobs Hpre Hm.
  rewrite (Fetch_used_events d meta w _ Hused Hblobs). do 2 f_equal.
  rewrite Fetch_range_events_differs by assumption.
  rewrite Fetch_range_cons_events, Hm, BytesToHash_32 by assumption.
  assert (E : bytes_eqb (BlobHash meta) (BlobHash meta) = true) by now apply bytes_eqb_eq.
  rewrite E, blockSidecarLogs_app. reflexivity.
Qed.

(** X9.  When no sidecar has the hash asked for, the loop visits every
    sidecar: [Fetch] writes one line for each of them before it returns
    [errSidecarNotFound]. *)
Theorem Fetch_visits_all_without_match (d : BlobFetcher) meta w sidecars :
  BlobUsed meta = true ->
  List.length (BlobHash meta) = 32%nat ->
  blobs_at (L1Beacon (rpc d)) w (uint64_add (L1Height meta) 1) = Ok sidecars ->
  Forall (differs meta) sidecars ->
  Fetch d meta w =
  (Some (Err errSidecarNotFound), w,
   EvGetBlobs (uint64_add (L1Height meta) 1) ::
   fetchSidecarsLog meta sidecars :: blockSidecarLogs meta 0 sidecars).
Proof.
  intros Hused H32 Hblobs Hd.
  assert (Hv : value_of (Fetch d meta w) = Some (Err errSidecarNotFound)).
  { rewrite (Fetch_used d meta w sidecars Hused Hblobs).
    rewrite <- (app_nil_r sidecars), Fetch_range_differs by assumption.
    apply Fetch_range_nil. }
  assert (He : events_of (Fetch d meta w) =
               EvGetBlobs (uint64_add (L1Height meta) 1) ::
               fetchSidecarsLog meta sidecars :: blockSidecarLogs meta 0 sidecars).
  { rewrite (Fetch_used_events d meta w _ Hused Hblobs). do 2 f_equal.
    rewrite <- (app_nil_r sidecars) at 1.
    rewrite Fetch_range_events_differs by assumption.
    cbn [Fetch_range]. apply app_nil_r. }
  assert (Hw : world_of (Fetch d meta w) = w).
  { unfold Fetch. rewrite Hused. cbn [negb]. rewrite world_of_bind.
    unfold GetBlobs. rewrite value_of_bind, world_of_bind. cbn.
    rewrite Hblobs. rewrite world_of_bind. cbn. apply Fetch_range_world. }
  destruct (Fetch d meta w) as [[v w'] t]. cbn in Hv, He, Hw. subst. reflexivity.
Qed.

End FetchFurther.

(** ** More on [ProofContester.SubmitContest] *)

(** Case analysis on what the three reads and the parse answer: the run of
    [SubmitContest] is replaced by its value, world and events on each of the
    seven paths. *)
Ltac contest_paths c blockID proposedIn parentHash meta tier w :=
  let t := fresh "transition" in
  let h := fresh "header" in
  let l := fresh "l1Header" in
  let e := fresh "err" in
  let q := fresh "parsed" in
  let Hread := fresh "Hread" in
  let Hc := fresh "Hc" in
  let Hl2 := fresh "Hl2" in
  let Hl1 := fresh "Hl1" in
  let Hparse := fresh "Hparse" in
  let Hmsg := fresh "Hmsg" in
  destruct (transition_at (TaikoL1 (pc_rpc c)) w (big_Uint64 blockID) parentHash)
    as [t|e] eqn:Hread;
  [ destruct (bytes_eqb (Contester t) zero_Address) eqn:Hc;
    [ apply bytes_eqb_eq in Hc;
      destruct (header_at (L2 (pc_rpc c)) w blockID) as [h|e] eqn:Hl2;
      [ destruct (header_at (L1 (pc_rpc c)) w proposedIn) as [l|e] eqn:Hl1;
        [ rewrite (SubmitContest_sends c blockID proposedIn parentHash meta tier w
                     t h l Hread Hc Hl2 Hl1) in *
        | rewrite (SubmitContest_l1_header_error c blockID proposedIn parentHash meta tier w
                     t h e Hread Hc Hl2 Hl1) in * ]
      | rewrite (SubmitContest_l2_header_error c blockID proposedIn parentHash meta tier w
                   t e Hread Hc Hl2) in * ]
    | apply bytes_eqb_neq in Hc;
      rewrite (SubmitContest_contested c blockID proposedIn parentHash meta tier w
                 t Hread Hc) in * ]
  | destruct (TryParsingCustomError (Some e)) as [q|] eqn:Hparse;
    [ destruct (Contains (Error q) "L1_") eqn:Hmsg;
      [ rewrite (SubmitContest_read_returned c blockID proposedIn parentHash meta tier w
                   e q Hread Hparse Hmsg) in *
      | rewrite (SubmitContest_read_swallowed c blockID proposedIn parentHash meta tier w
                   e q Hread Hparse Hmsg) in * ]
    | rewrite (SubmitContest_read_panics c blockID proposedIn parentHash meta tier w
                 e Hread Hparse) in * ] ].

(** An event known to be among the listed events of a run is one of them. *)
Ltac among H :=
  cbn [events_of snd In] in H;
  repeat (match type of H with
          | _ \/ _ => destruct H as [H|H]
          | False => destruct H
          end);
  try discriminate H.

Section ContestFurther.
Context {ext : Externals}.
Variables (c : ProofContester) (blockID proposedIn : Z) (parentHash : Hash)
          (meta : TaikoDataBlockMetadata) (tier : Z) (w : World).

Local Abbreviation run := (SubmitContest c blockID proposedIn parentHash meta tier w).

(** X10.  With an uncontested transition on chain, a failure to read the
    L2 header at [blockID], or, after that read, the L1 header at
    [proposedIn], is returned as it is; the reads made so far are all that
    has happened: nothing is built or sent and the world is as it was. *)
Theorem SubmitContest_header_errors (transition : TransitionState) :
  transition_at (TaikoL1 (pc_rpc c)) w (big_Uint64 blockID) parentHash = Ok transition ->
  Contester transition = zero_Address ->
  (forall err,
      header_at (L2 (pc_rpc c)) w blockID = Err err ->
      run = (Some (Some err), w,
             [EvGetTransition (big_Uint64 blockID) parentHash;
              EvHeaderByNumber (chain (L2 (pc_rpc c))) blockID])) /\
  (forall header err,
      header_at (L2 (pc_rpc c)) w blockID = Ok header ->
      header_at (L1 (pc_rpc c)) w proposedIn = Err err ->
      run = (Some (Some err), w,
             [EvGetTransition (big_Uint64 blockID) parentHash;
              EvHeaderByNumber (chain (L2 (pc_rpc c))) blockID;
              EvHeaderByNumber (chain (L1 (pc_rpc c))) proposedIn])).
Proof.
  intros Hread Hc. split.
  - intros err Hl2. eapply SubmitContest_l2_header_error; eassumption.
  - intros header err Hl2 Hl1. eapply SubmitContest_l1_header_error; eassumption.
Qed.

(** X11.  On the path that sends, what [SubmitContest] returns is what
    [TryParsingCustomError] makes of the sender's answer, be it an error or
    [nil], and the world is the one the sender leaves; one transaction has
    been submitted. *)
Theorem SubmitContest_send_result (transition : TransitionState) (header l1HeaderProposedIn : Header) :
  transition_at (TaikoL1 (pc_rpc c)) w (big_Uint64 blockID) parentHash = Ok transition ->
  Contester transition = zero_Address ->
  header_at (L2 (pc_rpc c)) w blockID = Ok header ->
  header_at (L1 (pc_rpc c)) w proposedIn = Ok l1HeaderProposedIn ->
  let p := contestProofWithHeader blockID meta tier header l1HeaderProposedIn in
  let tx := built (txBuilder c) blockID meta (contestTransition c header)
                  (contestTierProof transition) false in
  value_of run = Some (TryParsingCustomError (fst (sent (sender c) w p tx))) /\
  world_of run = snd (sent (sender c) w p tx) /\
  submissions (events_of run) = 1%nat.
Proof.
  intros Hread Hc Hl2 Hl1 p tx.
  rewrite (SubmitContest_sends c blockID proposedIn parentHash meta tier w _ _ _
             Hread Hc Hl2 Hl1).
  repeat split.
Qed.

(** X12.  The proof with header that [SubmitContest] hands to the sender
    names the block and the metadata of the call, carries the [tier] of the
    caller and no proof bytes, holds the L2 header read in the call, and has
    for options the hash of the L1 header at [proposedIn] and the state root
    of the L2 header. *)
Theorem SubmitContest_proof_with_header (p : ProofWithHeader) (tx : TxBuilder) :
  In (EvSend p tx) (events_of run) ->
  BlockID p = blockID /\ Meta p = meta /\ Proof p = [] /\ Tier p = tier /\
  exists header l1HeaderProposedIn,
    header_at (L2 (pc_rpc c)) w blockID = Ok header /\
    header_at (L1 (pc_rpc c)) w proposedIn = Ok l1HeaderProposedIn /\
    pwh_Header p = header /\
    EventL1Hash (Opts p) = Header_Hash l1HeaderProposedIn /\
    StateRoot (Opts p) = Root header.
Proof.
  intros Hin. contest_paths c blockID proposedIn parentHash meta tier w; among Hin.
  injection Hin as <- <-. repeat split. exists header, l1Header. repeat split.
Qed.

(** X13.  In every run, what is built is sent: the run builds as many
    transactions as it submits, at most one; and a run that submits nothing
    leaves the world as it was. *)
Theorem SubmitContest_builds_what_it_sends :
  builds (events_of run) = submissions (events_of run) /\
  (submissions (events_of run) <= 1)%nat /\
  (submissions (events_of run) = 0%nat -> world_of run = w).
Proof.
  contest_paths c blockID proposedIn parentHash meta tier w; cbn;
    repeat split; try lia; try discriminate.
Qed.

(** X14.  Every run begins with the read of the transition, keyed by the
    64-bit block id and the parent hash of the call, and reads it once; the
    only headers it reads are the one at [blockID] and the one at
    [proposedIn].  A block id within [uint64] is its own key. *)
Theorem SubmitContest_reads :
  (exists rest,
      events_of run = EvGetTransition (big_Uint64 blockID) parentHash :: rest /\
      (forall id hash, ~ In (EvGetTransition id hash) rest) /\
      (forall layer number,
          In (EvHeaderByNumber layer number) rest ->
          number = blockID \/ number = proposedIn)) /\
  (0 <= blockID < 2 ^ 64 -> big_Uint64 blockID = blockID).
Proof.
  split.
  - contest_paths c blockID proposedIn parentHash meta tier w;
      cbn [events_of snd]; eexists; (split; [reflexivity|]); split;
      [intros id hash Hin; among Hin
      |intros layer number Hin; among Hin; injection Hin as _ <-; auto ..].
  - intros Hrange. unfold big_Uint64. rewrite Z.abs_eq by lia. apply Z.mod_small. lia.
Qed.

(** X15.  A run writes a log line exactly when it returns [nil] without
    having submitted anything: when the failed read is swallowed and when
    the transition is already contested. *)
Theorem SubmitContest_logs_silent_success :
  (exists lvl msg ctx, In (EvLog lvl msg ctx) (events_of run)) <->
  (value_of run = Some None /\ submissions (events_of run) = 0%nat).
Proof.
  contest_paths c blockID proposedIn parentHash meta tier w; split;
    (intros (lvl & msg & ctx & Hin) || intros [Hv Hs]);
    try (among Hin; split; reflexivity);
    try (cbn in Hv, Hs; first [discriminate Hv | discriminate Hs]);
    do 3 eexists; right; left; reflexivity.
Qed.

(** X16.  An error returned by a run that has submitted nothing is the
    error of one of its three reads, returned as the read gave it. *)
Theorem SubmitContest_read_errors_verbatim (err : error) :
  value_of run = Some (Some err) ->
  submissions (events_of run) = 0%nat ->
  transition_at (TaikoL1 (pc_rpc c)) w (big_Uint64 blockID) parentHash = Err err \/
  header_at (L2 (pc_rpc c)) w blockID = Err err \/
  header_at (L1 (pc_rpc c)) w proposedIn = Err err.
Proof.
  intros Hv Hs. contest_paths c blockID proposedIn parentHash meta tier w;
    cbn in Hv, Hs; try discriminate Hv; try discriminate Hs;
    injection Hv as <-; auto.
Qed.

End ContestFurther.

(** ** [NewConfigFromCliContext] *)

Lemma length_zero_iff_empty (s : string) : (String.length s =? 0)%nat = true <-> s = "".
Proof.
  destruct s as [|a s]; cbn; split; intros H; try reflexivity; discriminate H.
Qed.

Lemma BytesToAddress_length (b : bytes) : List.length (BytesToAddress b) = 20%nat.
Proof.
  unfold BytesToAddress. rewrite length_app, repeat_length, length_skipn. lia.
Qed.

Lemma BytesToAddress_20 (b : bytes) : List.length b = 20%nat -> BytesToAddress b = b.
Proof.
  intros H. unfold BytesToAddress. rewrite H. cbn [Nat.sub skipn]. rewrite H. reflexivity.
Qed.

Section ConfigProperties.
Variable ParseSecretFromFile : string -> result error bytes.
Variable c : cli_Context.

(** X17.  The checks of [NewConfigFromCliContext] fail in their order: an
    unreadable secret first, with the message of the read after the text
    ["invalid JWT secret file: "], whatever the other flags say; then P2P
    sync of verified blocks without a check point URL; then an L1 beacon
    endpoint that is not set. *)
Theorem NewConfigFromCliContext_errors :
  (forall err,
      ParseSecretFromFile (cli_String c flags_JWTSecret) = Err err ->
      NewConfigFromCliContext ParseSecretFromFile c =
      Err (errors_New ("invalid JWT secret file: " ++ Error err))) /\
  (forall secret,
      ParseSecretFromFile (cli_String c flags_JWTSecret) = Ok secret ->
      cli_Bool c flags_P2PSyncVerifiedBlocks = true ->
      cli_String c flags_CheckPointSyncURL = "" ->
      NewConfigFromCliContext ParseSecretFromFile c =
      Err (errors_New "empty L2 check point URL")) /\
  (forall secret,
      ParseSecretFromFile (cli_String c flags_JWTSecret) = Ok secret ->
      cli_Bool c flags_P2PSyncVerifiedBlocks = false \/
      cli_String c flags_CheckPointSyncURL <> "" ->
      cli_IsSet c flags_L1BeaconEndpoint = false ->
      NewConfigFromCliContext ParseSecretFromFile c =
      Err (errors_New "empty L1 beacon endpoint")).
Proof.
  unfold NewConfigFromCliContext. split; [|split].
  - intros err ->. reflexivity.
  - intros secret -> -> ->. reflexivity.
  - intros secret -> Hcp ->.
    assert (E : cli_Bool c flags_P2PSyncVerifiedBlocks
                && (String.length (cli_String c flags_CheckPointSyncURL) =? 0)%nat = false).
    { destruct Hcp as [->|Hne]; [reflexivity|].
      destruct (String.length (cli_String c flags_CheckPointSyncURL) =? 0)%nat eqn:E0.
      - apply length_zero_iff_empty in E0. contradiction.
      - apply andb_false_r. }
    rewrite E. reflexivity.
Qed.

(** X18.  [NewConfigFromCliContext] returns a configuration exactly when
    the secret can be read, P2P sync of verified blocks comes with a check
    point URL, and the L1 beacon endpoint flag is set; the flag being set is
    what counts, not the endpoint it gives. *)
Theorem NewConfigFromCliContext_succeeds_iff :
  (exists cfg, NewConfigFromCliContext ParseSecretFromFile c = Ok cfg) <->
  (exists secret, ParseSecretFromFile (cli_String c flags_JWTSecret) = Ok secret) /\
  (cli_Bool c flags_P2PSyncVerifiedBlocks = true ->
   cli_String c flags_CheckPointSyncURL <> "") /\
  cli_IsSet c flags_L1BeaconEndpoint = true.
Proof.
  unfold NewConfigFromCliContext.
  destruct (ParseSecretFromFile (cli_String c flags_JWTSecret)) as [secret|err].
  - destruct (cli_Bool c flags_P2PSyncVerifiedBlocks) eqn:Hp2p;
      destruct (String.length (cli_String c flags_CheckPointSyncURL) =? 0)%nat eqn:Hcp;
      destruct (cli_IsSet c flags_L1BeaconEndpoint) eqn:Hset; cbn; split;
      try (intros [cfg H]; discriminate H);
      try (intros (_ & _ & H); discriminate H);
      try (intros _; split; [eexists; reflexivity|split; [|reflexivity]]);
      try (intros _; eexists; reflexivity);
      try (intros (_ & H & _); apply length_zero_iff_empty in Hcp;
           exfalso; apply H; [reflexivity|exact Hcp]);
      try discriminate.
    intros _ E. apply length_zero_iff_empty in E. congruence.
  - split.
    + intros [cfg H]. discriminate H.
    + intros ([secret H] & _). discriminate H.
Qed.

(** X19.  A configuration that [NewConfigFromCliContext] returns has one
    time-out, that of the RPC time-out flag, both as [RPCTimeout] and as the
    time-out of the client; it has a check point URL whenever it asks for P2P
    sync of verified blocks; its two contract addresses have 20 bytes; and
    its secret is the one read from the file the secret flag names. *)
Theorem NewConfigFromCliContext_invariants (cfg : Config) :
  NewConfigFromCliContext ParseSecretFromFile c = Ok cfg ->
  RPCTimeout cfg = cc_Timeout (ClientConfig cfg) /\
  RPCTimeout cfg = cli_Duration c flags_RPCTimeout /\
  (P2PSyncVerifiedBlocks cfg = true -> L2CheckPoint (ClientConfig cfg) <> "") /\
  List.length (TaikoL1Address (ClientConfig cfg)) = 20%nat /\
  List.length (TaikoL2Address (ClientConfig cfg)) = 20%nat /\
  exists secret,
    ParseSecretFromFile (cli_String c flags_JWTSecret) = Ok secret /\
    JwtSecret (ClientConfig cfg) = string_of_list_byte secret.
Proof.
  unfold NewConfigFromCliContext.
  destruct (ParseSecretFromFile (cli_String c flags_JWTSecret)) as [secret|err];
    [|discriminate].
  destruct (cli_Bool c flags_P2PSyncVerifiedBlocks
            && (String.length (cli_String c flags_CheckPointSyncURL) =? 0)%nat) eqn:Hcp;
    [discriminate|].
  destruct (negb (cli_IsSet c flags_L1BeaconEndpoint)); [discriminate|].
  intros H. injection H as <-. cbn.
  split; [reflexivity|]. split; [reflexivity|]. split.
  - intros Hp2p E. rewrite Hp2p, E in Hcp. discriminate Hcp.
  - split; [apply BytesToAddress_length|]. split; [apply BytesToAddress_length|].
    exists secret. split; reflexivity.
Qed.

(** X20.  An address given as the hexadecimal text of 20 bytes, with or
    without the [0x] prefix, is the address of the configuration. *)
Theorem NewConfigFromCliContext_address (cfg : Config) (address : bytes) :
  NewConfigFromCliContext ParseSecretFromFile c = Ok cfg ->
  List.length address = 20%nat ->
  cli_String c flags_TaikoL1Address = Bytes2Hex address \/
  cli_String c flags_TaikoL1Address = ("0x" ++ Bytes2Hex address)%string ->
  TaikoL1Address (ClientConfig cfg) = address.
Proof.
  unfold NewConfigFromCliContext.
  destruct (ParseSecretFromFile (cli_String c flags_JWTSecret)) as [secret|err];
    [|discriminate].
  destruct (cli_Bool c flags_P2PSyncVerifiedBlocks
            && (String.length (cli_String c flags_CheckPointSyncURL) =? 0)%nat);
    [discriminate|].
  destruct (negb (cli_IsSet c flags_L1BeaconEndpoint)); [discriminate|].
  intros H H20 Hhex. injection H as <-. cbn. unfold HexToAddress.
  destruct Hhex as [->| ->];
    [rewrite FromHex_Bytes2Hex|rewrite FromHex_0x_Bytes2Hex];
    apply BytesToAddress_20; exact H20.
Qed.

End ConfigProperties.

(** ** The further properties at work in the small world *)

Lemma Fetch_beacon_failure_witness :
  Fetch Demo.fetcher (Demo.meta 300 true (Demo.hashOf 2)) [] =
  (Some (Err (external (errors_New "slot not found"))), [], [EvGetBlobs 301]).
Proof.
  apply (Fetch_beacon_failure Demo.fetcher (Demo.meta 300 true (Demo.hashOf 2)) []);
    reflexivity.
Defined.

Lemma Fetch_one_network_call_witness :
  filter is_network (events_of (Fetch Demo.fetcher Demo.meta7 [])) = [EvGetBlobs 101].
Proof.
  apply (Fetch_one_network_call Demo.fetcher Demo.meta7 []). reflexivity.
Defined.

Lemma Fetch_slot_wraps_witness :
  exists logs,
    events_of (Fetch Demo.fetcher (Demo.meta (2 ^ 64 - 1) true (Demo.hashOf 2)) []) =
    EvGetBlobs 0 :: logs.
Proof.
  apply (Fetch_slot_wraps Demo.fetcher (Demo.meta (2 ^ 64 - 1) true (Demo.hashOf 2)) []).
  - reflexivity.
  - vm_compute. split; [discriminate|reflexivity].
Defined.

Lemma Fetch_short_commitment_panic_witness :
  value_of (Fetch Demo.fetcher (Demo.meta 200 true (Demo.hashOf 2)) []) = None.
Proof.
  apply (Fetch_short_commitment_panic Demo.fetcher (Demo.meta 200 true (Demo.hashOf 2)) []
           [Demo.sidecarA] Demo.sidecarShort [Demo.sidecarB]).
  - reflexivity.
  - vm_compute. reflexivity.
  - reflexivity.
  - constructor; [|constructor]. exists (Demo.hashOf 1). split.
    + vm_compute. reflexivity.
    + apply bytes_eqb_neq. vm_compute. reflexivity.
  - apply Nat.ltb_lt. vm_compute. reflexivity.
Defined.

Lemma sidecarBlobHash_of_hex_witness :
  sidecarBlobHash Demo.sidecarB = Some (CalcBlobHashV1 (sha256.be_bytes 48 2)).
Proof.
  refine (proj1 (sidecarBlobHash_of_hex Demo.meta7 Demo.sidecarB (sha256.be_bytes 48 2) _ _)).
  - apply be_bytes_length.
  - right. reflexivity.
Defined.

Lemma sidecarBlobHash_truncates_witness :
  sidecarBlobHash DemoLate.sidecarLong = sidecarBlobHash Demo.sidecarB.
Proof.
  rewrite (sidecarBlobHash_truncates DemoLate.sidecarLong (sha256.be_bytes 48 2) [xff]).
  - vm_compute. reflexivity.
  - apply be_bytes_length.
  - vm_compute. reflexivity.
Defined.

Lemma Fetch_wrong_version_byte_witness :
  value_of (Fetch Demo.fetcher (Demo.meta 100 true (x02 :: repeat x00 31)) []) =
  Some (Err errSidecarNotFound).
Proof.
  apply (Fetch_wrong_version_byte Demo.fetcher (Demo.meta 100 true (x02 :: repeat x00 31)) []
           [Demo.sidecarA; Demo.sidecarB; Demo.sidecarB'; Demo.sidecarC]).
  - reflexivity.
  - reflexivity.
  - reflexivity.
  - repeat constructor; apply Nat.leb_le; vm_compute; reflexivity.
  - discriminate.
Defined.

Lemma Fetch_stops_at_first_match_witness :
  events_of (Fetch Demo.fetcher Demo.meta7 []) =
  [EvGetBlobs 101;
   fetchSidecarsLog Demo.meta7 [Demo.sidecarA; Demo.sidecarB; Demo.sidecarB'; Demo.sidecarC];
   blockSidecarLog Demo.meta7 0 Demo.sidecarA;
   blockSidecarLog Demo.meta7 1 Demo.sidecarB].
Proof.
  apply (Fetch_stops_at_first_match Demo.fetcher Demo.meta7 []
           [Demo.sidecarA] Demo.sidecarB [Demo.sidecarB'; Demo.sidecarC]).
  - reflexivity.
  - vm_compute. reflexivity.
  - reflexivity.
  - constructor; [|constructor]. exists (Demo.hashOf 1). split.
    + vm_compute. reflexivity.
    + apply bytes_eqb_neq. vm_compute. reflexivity.
  - vm_compute. reflexivity.
Defined.

Lemma Fetch_visits_all_without_match_witness :
  events_of (Fetch Demo.fetcher (Demo.meta 100 true (Demo.hashOf 5)) []) =
  EvGetBlobs 101 ::
  fetchSidecarsLog (Demo.meta 100 true (Demo.hashOf 5))
    [Demo.sidecarA; Demo.sidecarB; Demo.sidecarB'; Demo.sidecarC] ::
  blockSidecarLogs (Demo.meta 100 true (Demo.hashOf 5)) 0
    [Demo.sidecarA; Demo.sidecarB; Demo.sidecarB'; Demo.sidecarC].
Proof.
  rewrite (Fetch_visits_all_without_match Demo.fetcher (Demo.meta 100 true (Demo.hashOf 5)) []
             [Demo.sidecarA; Demo.sidecarB; Demo.sidecarB'; Demo.sidecarC]).
  - reflexivity.
  - reflexivity.
  - vm_compute. reflexivity.
  - reflexivity.
  - repeat constructor.
    + exists (Demo.hashOf 1). split; [vm_compute; reflexivity|apply bytes_eqb_neq; vm_compute; reflexivity].
    + exists (Demo.hashOf 2). split; [vm_compute; reflexivity|apply bytes_eqb_neq; vm_compute; reflexivity].
    + exists (Demo.hashOf 2). split; [vm_compute; reflexivity|apply bytes_eqb_neq; vm_compute; reflexivity].
    + exists (Demo.hashOf 3). split; [vm_compute; reflexivity|apply bytes_eqb_neq; vm_compute; reflexivity].
Defined.

Lemma SubmitContest_header_errors_witness :
  SubmitContest DemoLate.contesterNoL2 7 50 (Demo.h32 6) Demo.meta7 100 [] =
  (Some (Some (errors_New "not found")), [],
   [EvGetTransition (big_Uint64 7) (Demo.h32 6); EvHeaderByNumber L2chain 7]) /\
  SubmitContest DemoLate.contesterNoL1 7 50 (Demo.h32 6) Demo.meta7 100 [] =
  (Some (Some (errors_New "connection reset")), [],
   [EvGetTransition (big_Uint64 7) (Demo.h32 6); EvHeaderByNumber L2chain 7;
    EvHeaderByNumber L1chain 50]).
Proof.
  split.
  - refine (proj1 (SubmitContest_header_errors DemoLate.contesterNoL2 7 50 (Demo.h32 6)
                     Demo.meta7 100 [] (Demo.onChain zero_Address) _ _) _ _).
    + vm_compute. reflexivity.
    + reflexivity.
    + reflexivity.
  - refine (proj2 (SubmitContest_header_errors DemoLate.contesterNoL1 7 50 (Demo.h32 6)
                     Demo.meta7 100 [] (Demo.onChain zero_Address) _ _) (Demo.header 7) _ _ _).
    + vm_compute. reflexivity.
    + reflexivity.
    + reflexivity.
    + reflexivity.
Defined.

Lemma SubmitContest_send_result_witness :
  value_of (SubmitContest Demo.contester 7 50 (Demo.h32 6) Demo.meta7 100 []) = Some None /\
  world_of (SubmitContest Demo.contester 7 50 (Demo.h32 6) Demo.meta7 100 []) =
  Demo.contestedWorld.
Proof.
  destruct (SubmitContest_send_result Demo.contester 7 50 (Demo.h32 6) Demo.meta7 100 []
              (Demo.onChain zero_Address) (Demo.header 7) (Demo.header 50))
    as (Hv & Hw & _).
  - vm_compute. reflexivity.
  - reflexivity.
  - reflexivity.
  - reflexivity.
  - rewrite Hv, Hw. split; vm_compute; reflexivity.
Defined.

Lemma SubmitContest_proof_with_header_witness :
  Tier (contestProofWithHeader (ext := Demo.ext) 7 Demo.meta7 100
          (Demo.header 7) (Demo.header 50)) = 100 /\
  Proof (contestProofWithHeader (ext := Demo.ext) 7 Demo.meta7 100
           (Demo.header 7) (Demo.header 50)) = [].
Proof.
  destruct (SubmitContest_proof_with_header Demo.contester 7 50 (Demo.h32 6) Demo.meta7 100 []
              (contestProofWithHeader (ext := Demo.ext) 7 Demo.meta7 100
                 (Demo.header 7) (Demo.header 50))
              (7, Demo.meta7, contestTransition (ext := Demo.ext) Demo.contester (Demo.header 7),
               contestTierProof (Demo.onChain zero_Address), false))
    as (_ & _ & Hproof & Htier & _).
  - rewrite (SubmitContest_sends Demo.contester 7 50 (Demo.h32 6) Demo.meta7 100 []
               (Demo.onChain zero_Address) (Demo.header 7) (Demo.header 50));
      [|vm_compute; reflexivity|reflexivity|reflexivity|reflexivity].
    do 4 right. left. reflexivity.
  - split; [exact Htier|exact Hproof].
Defined.

Lemma SubmitContest_read_errors_verbatim_witness :
  transition_at (TaikoL1 Demo.client) [] (big_Uint64 8) (Demo.h32 6) =
  Err (errors_New "L1_TRANSITION_NOT_FOUND").
Proof.
  destruct (SubmitContest_read_errors_verbatim Demo.contester 8 50 (Demo.h32 6) Demo.meta7 100 []
              (errors_New "L1_TRANSITION_NOT_FOUND")) as [H|[H|H]].
  - vm_compute. reflexivity.
  - vm_compute. reflexivity.
  - exact H.
  - vm_compute in H. discriminate H.
  - vm_compute in H. discriminate H.
Defined.

Lemma NewConfigFromCliContext_errors_witness :
  NewConfigFromCliContext DemoCli.files
    (DemoCli.with_String DemoCli.line flags_JWTSecret "missing.hex") =
  Err (errors_New "invalid JWT secret file: open: no such file or directory") /\
  NewConfigFromCliContext DemoCli.files
    (DemoCli.without_beacon (DemoCli.with_String DemoCli.line flags_CheckPointSyncURL "")) =
  Err (errors_New "empty L2 check point URL") /\
  NewConfigFromCliContext DemoCli.files (DemoCli.without_beacon DemoCli.line) =
  Err (errors_New "empty L1 beacon endpoint").
Proof.
  split; [|split].
  - apply (proj1 (NewConfigFromCliContext_errors DemoCli.files
                    (DemoCli.with_String DemoCli.line flags_JWTSecret "missing.hex"))
                 (errors_New "open: no such file or directory")).
    reflexivity.
  - apply (proj1 (proj2 (NewConfigFromCliContext_errors DemoCli.files
                    (DemoCli.without_beacon
                       (DemoCli.with_String DemoCli.line flags_CheckPointSyncURL ""))))
                 (repeat xab 32)); reflexivity.
  - apply (proj2 (proj2 (NewConfigFromCliContext_errors DemoCli.files
                    (DemoCli.without_beacon DemoCli.line)))
                 (repeat xab 32)).
    + reflexivity.
    + right. discriminate.
    + reflexivity.
Defined.

Lemma NewConfigFromCliContext_invariants_witness :
  exists cfg,
    NewConfigFromCliContext DemoCli.files DemoCli.line = Ok cfg /\
    RPCTimeout cfg = cc_Timeout (ClientConfig cfg) /\
    L2CheckPoint (ClientConfig cfg) <> "".
Proof.
  destruct (NewConfigFromCliContext DemoCli.files DemoCli.line) as [cfg|err] eqn:E;
    [|vm_compute in E; discriminate E].
  exists cfg. split; [reflexivity|].
  destruct (NewConfigFromCliContext_invariants DemoCli.files DemoCli.line cfg E)
    as (Ht & _ & Hcp & _).
  split; [exact Ht|]. apply Hcp.
  vm_compute in E. injection E as <-. reflexivity.
Defined.

Lemma NewConfigFromCliContext_address_witness :
  exists cfg,
    NewConfigFromCliContext DemoCli.files DemoCli.line = Ok cfg /\
    TaikoL1Address (ClientConfig cfg) = repeat x00 19 ++ [xa1].
Proof.
  destruct (NewConfigFromCliContext DemoCli.files DemoCli.line) as [cfg|err] eqn:E;
    [|vm_compute in E; discriminate E].
  exists cfg. split; [reflexivity|].
  apply (NewConfigFromCliContext_address DemoCli.files DemoCli.line cfg (repeat x00 19 ++ [xa1]) E).
  - reflexivity.
  - right. vm_compute. reflexivity.
Defined.
